(** * fitnessAI: the onboarding pipeline of [client/src/pages/auth-page.tsx]

    A shallow embedding of the registration pipeline of the fitnessAI client:
    the three handlers of [AuthPage] ([handleInitialRegister],
    [handleFitnessComplete], [handlePsychologicalComplete]), the record
    [completeUserData] built before registration, and the line filter of
    the two text areas of [PsychologicalAssessment.tsx].

    Modelling conventions.
    - A JavaScript string is its sequence of UTF-16 code units, a [list N].
      String literals of the source are written [js "..."].
    - A JavaScript number is modelled by its exact mathematical value, a
      reduced rational; [NaN] and the infinities are separate constructors.
      The rounding to binary64 is not modelled, the numbers of this program
      are small integers.
    - The React state of the page is a record with one field per [useState]
      hook; a handler is a function from the state at its invocation to the
      final state and the trace of its effects (toasts, remote calls). *)

From Stdlib Require Import ZArith QArith Ascii String List Lia ZifyBool.
From Stdlib Require Import DecimalString.
From stdpp Require Import base gmap list strings.
Close Scope Q_scope.

(** ** JavaScript strings *)

Module JSString.

Definition code_unit := N.
Definition jsstring := list code_unit.

Definition js (s : string) : jsstring :=
  map N_of_ascii (list_ascii_of_string s).

(** [WhiteSpace] and [LineTerminator] of ECMA-262, the code units that
    [String.prototype.trim] strips and [StringToNumber] skips. *)
Definition is_whitespace (c : code_unit) : bool :=
  ((c =? 9) || (c =? 10) || (c =? 11) || (c =? 12) || (c =? 13) || (c =? 32)
   || (c =? 160) || (c =? 5760) || ((8192 <=? c) && (c <=? 8202))
   || (c =? 8232) || (c =? 8233) || (c =? 8239) || (c =? 8287)
   || (c =? 12288) || (c =? 65279))%N.

Fixpoint trimStart (s : jsstring) : jsstring :=
  match s with
  | [] => []
  | c :: rest => if is_whitespace c then trimStart rest else s
  end.

Definition trimEnd (s : jsstring) : jsstring :=
  rev (trimStart (rev s)).

(** [s.trim()] *)
Definition trim (s : jsstring) : jsstring := trimEnd (trimStart s).

(** [s.split(sep)] for a separator of one code unit: the segments between
    the occurrences of [sep]; never the empty array. *)
Fixpoint split (sep : code_unit) (s : jsstring) : list jsstring :=
  match s with
  | [] => [[]]
  | c :: rest =>
      if (c =? sep)%N then [] :: split sep rest
      else match split sep rest with
           | [] => [[c]]
           | seg :: segs => (c :: seg) :: segs
           end
  end.

(** [parts.join(sep)] *)
Fixpoint join (sep : jsstring) (parts : list jsstring) : jsstring :=
  match parts with
  | [] => []
  | [p] => p
  | p :: ps => p ++ sep ++ join sep ps
  end.

(** [a.filter(p)] is [List.filter]. *)

Definition blank (s : jsstring) : bool := forallb is_whitespace s.

End JSString.
Export JSString.

(** ** JavaScript numbers and values *)

Module JSValue.

Inductive number :=
  | NaN
  | Infinity (negative : bool)
  | Finite (q : Q).

Definition of_Z (z : Z) : number := Finite (z # 1).

(** [m * 10^e], reduced. *)
Definition scale10 (m e : Z) : Q :=
  if (0 <=? e)%Z then (m * 10 ^ e) # 1
  else Qred (m # Z.to_pos (10 ^ (- e))).

Definition is_digit (c : code_unit) : bool := ((48 <=? c) && (c <=? 57))%N.

Definition digit_value (c : code_unit) : option N :=
  if is_digit c then Some (c - 48)%N
  else if ((97 <=? c) && (c <=? 102))%N then Some (c - 87)%N
  else if ((65 <=? c) && (c <=? 70))%N then Some (c - 55)%N
  else None.

(** The value of a digit string in the given radix; [None] if it is empty
    or holds a character that is no digit of the radix. *)
Fixpoint digits_from (radix acc : N) (s : jsstring) : option N :=
  match s with
  | [] => Some acc
  | c :: rest =>
      match digit_value c with
      | Some d => if (d <? radix)%N then digits_from radix (acc * radix + d) rest
                  else None
      | None => None
      end
  end.

Definition digits (radix : N) (s : jsstring) : option N :=
  match s with
  | [] => None
  | _ => digits_from radix 0 s
  end.

Fixpoint span_digits (s : jsstring) : jsstring * jsstring :=
  match s with
  | c :: rest =>
      if is_digit c then let '(ds, r) := span_digits rest in (c :: ds, r)
      else ([], s)
  | [] => ([], [])
  end.

(** [SignedInteger] of an [ExponentPart]. *)
Definition signed_integer (s : jsstring) : option Z :=
  match s with
  | 43%N :: ds => Z.of_N <$> digits 10 ds
  | 45%N :: ds => (fun n => (- Z.of_N n)%Z) <$> digits 10 ds
  | _ => Z.of_N <$> digits 10 s
  end.

(** [StrUnsignedDecimalLiteral] other than [Infinity]:
    [D+ . D* E?], [. D+ E?] and [D+ E?]. *)
Definition unsigned_decimal (s : jsstring) : option Q :=
  let '(ip, r1) := span_digits s in
  let '(fp, r2) :=
    match r1 with
    | 46%N :: r => span_digits r
    | _ => ([], r1)
    end in
  match ip ++ fp with
  | [] => None
  | _ =>
      match digits_from 10 0 (ip ++ fp) with
      | None => None
      | Some m =>
          let mantissa e := scale10 (Z.of_N m) (e - Z.of_nat (length fp)) in
          match r2 with
          | [] => Some (mantissa 0%Z)
          | c :: ex =>
              if ((c =? 101) || (c =? 69))%N
              then mantissa <$> signed_integer ex
              else None
          end
      end
  end.

Definition str_unsigned_decimal (s : jsstring) : number :=
  if decide (s = js "Infinity") then Infinity false
  else match unsigned_decimal s with
       | Some q => Finite q
       | None => NaN
       end.

Definition negate (n : number) : number :=
  match n with
  | NaN => NaN
  | Infinity b => Infinity (negb b)
  | Finite q => Finite (Qred (- q))
  end.

(** [StrNumericLiteral]: a signed decimal literal or an unsigned binary,
    octal or hexadecimal integer literal. *)
Definition str_numeric_literal (s : jsstring) : number :=
  let radix_literal radix ds :=
    match digits radix ds with
    | Some n => of_Z (Z.of_N n)
    | None => NaN
    end in
  match s with
  | 48%N :: c :: ds =>
      if ((c =? 120) || (c =? 88))%N then radix_literal 16%N ds
      else if ((c =? 111) || (c =? 79))%N then radix_literal 8%N ds
      else if ((c =? 98) || (c =? 66))%N then radix_literal 2%N ds
      else str_unsigned_decimal s
  | 43%N :: r => str_unsigned_decimal r
  | 45%N :: r => negate (str_unsigned_decimal r)
  | _ => str_unsigned_decimal s
  end.

(** [Number(s)] for a string argument, [StringToNumber] of ECMA-262: white
    space is stripped on both sides, the empty string is [0], and a text
    that is no [StrNumericLiteral] is [NaN]. *)
Definition Number (s : jsstring) : number :=
  match trim s with
  | [] => of_Z 0
  | t => str_numeric_literal t
  end.

(** The values this program computes with. [VBuiltin] is a reference to a
    built-in object or function, named by its path from the global object. *)
Inductive value :=
  | VUndefined
  | VNumber (n : number)
  | VBuiltin (path : string).

(** [ToBoolean] *)
Definition truthy (v : value) : bool :=
  match v with
  | VUndefined => false
  | VNumber NaN => false
  | VNumber (Infinity _) => true
  | VNumber (Finite q) => negb (Qnum q =? 0)%Z
  | VBuiltin _ => true
  end.

(** [a || b] *)
Definition or_else (a b : value) : value := if truthy a then a else b.

(** The properties of [Object.prototype], which every object literal
    inherits: [o[k]] finds them when [o] has no own property [k]. *)
Definition Object_prototype : gmap jsstring value :=
  list_to_map
    [ (js "constructor", VBuiltin "Object");
      (js "hasOwnProperty", VBuiltin "Object.prototype.hasOwnProperty");
      (js "isPrototypeOf", VBuiltin "Object.prototype.isPrototypeOf");
      (js "propertyIsEnumerable", VBuiltin "Object.prototype.propertyIsEnumerable");
      (js "toLocaleString", VBuiltin "Object.prototype.toLocaleString");
      (js "toString", VBuiltin "Object.prototype.toString");
      (js "valueOf", VBuiltin "Object.prototype.valueOf");
      (js "__proto__", VBuiltin "Object.prototype");
      (js "__defineGetter__", VBuiltin "Object.prototype.__defineGetter__");
      (js "__defineSetter__", VBuiltin "Object.prototype.__defineSetter__");
      (js "__lookupGetter__", VBuiltin "Object.prototype.__lookupGetter__");
      (js "__lookupSetter__", VBuiltin "Object.prototype.__lookupSetter__") ].

(** [o[k]] for an object literal [o] with the own properties [own]. *)
Definition get (own : gmap jsstring value) (k : jsstring) : value :=
  match own !! k with
  | Some v => v
  | None => default VUndefined (Object_prototype !! k)
  end.

End JSValue.
Export JSValue.

(** ** The field derivations of [completeUserData] *)

Definition num (z : Z) : value := VNumber (of_Z z).

(** [Number(token.split('_')[0]) || 0] *)
Definition timeCommitment_of (token : jsstring) : value :=
  or_else (VNumber (Number (hd [] (split 95%N token)))) (num 0).

Definition stressLevel_table : gmap jsstring value :=
  <[js "low" := num 1]> (<[js "moderate" := num 2]> (<[js "high" := num 3]> ∅)).

Definition sleepQuality_table : gmap jsstring value :=
  <[js "poor" := num 1]> (<[js "fair" := num 2]>
    (<[js "good" := num 3]> (<[js "excellent" := num 4]> ∅))).

(** [{ low: 1, moderate: 2, high: 3 }[token] || 0] *)
Definition stressLevel_of (token : jsstring) : value :=
  or_else (get stressLevel_table token) (num 0).

(** [{ poor: 1, fair: 2, good: 3, excellent: 4 }[token] || 0] *)
Definition sleepQuality_of (token : jsstring) : value :=
  or_else (get sleepQuality_table token) (num 0).

(** ** JSON: [JSON.stringify] and [JSON.parse] *)

Module JSON.

(** The values that the page serializes: strings, the integer scores of
    the sliders, arrays and object literals with their keys in order. *)
#[local] Set Warnings "-register-all".
Inductive json :=
  | JString (s : jsstring)
  | JInt (z : Z)
  | JArray (elements : list json)
  | JObject (properties : list (jsstring * json)).

Definition hex_digit (d : N) : code_unit :=
  (if d <? 10 then 48 + d else 87 + d)%N.

(** [UnicodeEscape]: a backslash, [u] and four lower-case hex digits. *)
Definition UnicodeEscape (c : code_unit) : jsstring :=
  [92; 117; hex_digit ((c / 4096) mod 16); hex_digit ((c / 256) mod 16);
   hex_digit ((c / 16) mod 16); hex_digit (c mod 16)]%N.

Definition is_leading_surrogate (c : code_unit) : bool :=
  ((55296 <=? c) && (c <=? 56319))%N.
Definition is_trailing_surrogate (c : code_unit) : bool :=
  ((56320 <=? c) && (c <=? 57343))%N.

(** One code point of [QuoteJSONString] that is a single code unit. *)
Definition quote_unit (c : code_unit) : jsstring :=
  if (c =? 8)%N then js "\b"
  else if (c =? 9)%N then js "\t"
  else if (c =? 10)%N then js "\n"
  else if (c =? 12)%N then js "\f"
  else if (c =? 13)%N then js "\r"
  else if (c =? 34)%N then [92; 34]%N
  else if (c =? 92)%N then [92; 92]%N
  else if (c <? 32)%N || is_leading_surrogate c || is_trailing_surrogate c
       then UnicodeEscape c
  else [c].

(** The body of [QuoteJSONString]: the code points of the string in turn,
    a surrogate pair being one code point that is copied, a lone surrogate
    one that is escaped. *)
Fixpoint quote_units (s : jsstring) : jsstring :=
  match s with
  | [] => []
  | c :: rest =>
      if is_leading_surrogate c then
        match rest with
        | d :: rest' =>
            if is_trailing_surrogate d then c :: d :: quote_units rest'
            else quote_unit c ++ quote_units rest
        | [] => quote_unit c
        end
      else quote_unit c ++ quote_units rest
  end.

Definition QuoteJSONString (s : jsstring) : jsstring :=
  (34%N :: quote_units s) ++ [34%N].

Definition string_of_Z (z : Z) : jsstring :=
  js (NilZero.string_of_int (Z.to_int z)).

(** [JSON.stringify(v)] with no replacer and no indentation. *)
Fixpoint stringify (v : json) : jsstring :=
  match v with
  | JString s => QuoteJSONString s
  | JInt z => string_of_Z z
  | JArray l => [91%N] ++ join [44%N] (map stringify l) ++ [93%N]
  | JObject l =>
      [123%N]
        ++ join [44%N]
             (map (fun p => QuoteJSONString (fst p) ++ [58%N] ++ stringify (snd p)) l)
        ++ [125%N]
  end.

(** [JSON.stringify(a)] for [a : string[]]. *)
Definition stringify_strings (a : list jsstring) : jsstring :=
  stringify (JArray (map JString a)).

(** *** Decoding

    [JSON.parse] on the texts whose value is an array of strings, as one
    pass over the text. The result is [None] where [JSON.parse] throws a
    [SyntaxError] and where the value is of another shape. *)

Inductive parser_state :=
  | Start                                    (* before the opening bracket *)
  | Open                                     (* after the opening bracket *)
  | InString (done : list jsstring) (cur : jsstring)
  | AfterValue (done : list jsstring)
  | AfterComma (done : list jsstring)
  | End (done : list jsstring).

Definition is_json_whitespace (c : code_unit) : bool :=
  ((c =? 9) || (c =? 10) || (c =? 13) || (c =? 32))%N.

Definition simple_escape (c : code_unit) : option code_unit :=
  if (c =? 34)%N then Some 34%N
  else if (c =? 92)%N then Some 92%N
  else if (c =? 47)%N then Some 47%N
  else if (c =? 98)%N then Some 8%N
  else if (c =? 102)%N then Some 12%N
  else if (c =? 110)%N then Some 10%N
  else if (c =? 114)%N then Some 13%N
  else if (c =? 116)%N then Some 9%N
  else None.

Definition hex_value (c : code_unit) : option N :=
  match digit_value c with
  | Some d => if (d <? 16)%N then Some d else None
  | None => None
  end.

Definition hex4 (h1 h2 h3 h4 : code_unit) : option code_unit :=
  d1 ← hex_value h1; d2 ← hex_value h2; d3 ← hex_value h3; d4 ← hex_value h4;
  Some (((d1 * 16 + d2) * 16 + d3) * 16 + d4)%N.

Fixpoint run (st : parser_state) (t : jsstring) : option (list jsstring) :=
  match t with
  | [] => match st with End done => Some (rev done) | _ => None end
  | c :: r =>
      match st with
      | Start =>
          if is_json_whitespace c then run Start r
          else if (c =? 91)%N then run Open r
          else None
      | Open =>
          if is_json_whitespace c then run Open r
          else if (c =? 93)%N then run (End []) r
          else if (c =? 34)%N then run (InString [] []) r
          else None
      | InString done cur =>
          if (c =? 34)%N then run (AfterValue (rev cur :: done)) r
          else if (c =? 92)%N then
            match r with
            | 117%N :: h1 :: h2 :: h3 :: h4 :: r' =>
                match hex4 h1 h2 h3 h4 with
                | Some u => run (InString done (u :: cur)) r'
                | None => None
                end
            | e :: r' =>
                match simple_escape e with
                | Some u => run (InString done (u :: cur)) r'
                | None => None
                end
            | [] => None
            end
          else if (c <? 32)%N then None
          else run (InString done (c :: cur)) r
      | AfterValue done =>
          if is_json_whitespace c then run (AfterValue done) r
          else if (c =? 44)%N then run (AfterComma done) r
          else if (c =? 93)%N then run (End done) r
          else None
      | AfterComma done =>
          if is_json_whitespace c then run (AfterComma done) r
          else if (c =? 34)%N then run (InString done []) r
          else None
      | End done =>
          if is_json_whitespace c then run (End done) r else None
      end
  end.

(** [JSON.parse(text)] read as a [string[]]. *)
Definition parse_strings (text : jsstring) : option (list jsstring) :=
  run Start text.

End JSON.

(** ** The data of the pipeline *)

(** [RegisterFormData]: the credential of the first form. *)
Record RegisterFormData := {
  username : jsstring;
  password : jsstring }.

(** [FitnessAssessmentFormData] of [FitnessAssessment.tsx]. *)
Record BasicInfo := {
  age : number;
  gender : jsstring;
  heightFeet : number;
  heightInches : number;
  weight : jsstring }.

Record FitnessProfile := {
  fitnessGoal : jsstring;
  experienceLevel : jsstring;
  currentActivityLevel : jsstring;
  workoutPreferences : list jsstring }.

Record Lifestyle := {
  timeCommitment : jsstring;
  occupationType : jsstring;
  workSchedule : jsstring;
  sleepQuality : jsstring;
  stressLevel : jsstring }.

Record FitnessAssessmentFormData := {
  basicInfo : BasicInfo;
  fitnessProfile : FitnessProfile;
  lifestyle : Lifestyle }.

(** [PsychologicalAssessmentData] of [PsychologicalAssessment.tsx]; the
    three scores come from sliders of step 1 and are integers. *)
Record EmotionalDrivers := {
  current : list jsstring;
  desired : list jsstring;
  impact : Z }.

Record PersonalVision := {
  oneYearGoal : jsstring;
  visionSatisfaction : Z }.

Record ReadinessAssessment := {
  efficacyBeliefs : jsstring;
  motivations : jsstring;
  challenges : jsstring;
  readinessScore : Z;
  barriers : list jsstring;
  supportSystem : list jsstring;
  psychologicalNarrative : jsstring }.

Record PsychologicalAssessmentData := {
  emotionalDrivers : EmotionalDrivers;
  personalVision : PersonalVision;
  readinessAssessment : ReadinessAssessment }.

(** [AnalysisResponse] and [WorkoutPlanResponse] of [auth-page.tsx]. *)
Module Analysis.
Record AnalysisFactors := {
  motivation : number;
  commitment : number;
  fitnessLevel : number;
  lifestyle : number;
  narrativeFactor : number }.
Record MotivationAnalysis := {
  underlyingMotivations : list jsstring;
  readinessScore : number;
  analysisFactors : AnalysisFactors }.
Record Milestones := {
  shortTerm : list jsstring;
  midTerm : list jsstring;
  longTerm : list jsstring;
  explanation : jsstring }.
Record SuccessPrediction := {
  successProbability : number;
  confidenceScore : number;
  keyFactors : list jsstring;
  recommendations : list jsstring }.
Record TimelinePrediction := {
  estimatedWeeks : number;
  tl_confidenceScore : number;
  tl_keyFactors : list jsstring;
  tl_recommendations : list jsstring }.
Record AnalysisResponse := {
  motivationAnalysis : MotivationAnalysis;
  milestones : Milestones;
  successPrediction : SuccessPrediction;
  timelinePrediction : TimelinePrediction }.
End Analysis.

Record WorkoutPlanResponse := {
  message : jsstring;
  biology : option jsstring;
  psychology : option jsstring;
  suggestions : list jsstring }.

(** [ComprehensiveResults], the value of the [results] hook. *)
Module Results.
Record ComprehensiveResults := {
  motivationAnalysis : Analysis.MotivationAnalysis;
  milestones : Analysis.Milestones;
  successPrediction : Analysis.SuccessPrediction;
  timelinePrediction : Analysis.TimelinePrediction;
  workoutPlan : option WorkoutPlanResponse }.
End Results.

(** The body of the [analyze-assessment] request. *)
Module AnalyzeRequest.
Record UserData := {
  age : number;
  experienceLevel : jsstring;
  currentActivityLevel : jsstring;
  sleepQuality : jsstring;
  stressLevel : jsstring;
  workoutPreferences : list jsstring;
  timeCommitment : jsstring }.
Record t := {
  psychologicalNarrative : jsstring;
  efficacyBeliefs : jsstring;
  motivations : jsstring;
  challenges : jsstring;
  readinessScore : Z;
  userData : UserData }.
End AnalyzeRequest.

(** The body of the [generate-workout] request. *)
Module WorkoutRequest.
Record t := {
  fitnessGoal : jsstring;
  experienceLevel : jsstring;
  age : number;
  gender : jsstring;
  currentActivityLevel : jsstring;
  workoutPreferences : list jsstring;
  obstacles : list jsstring;
  timeCommitment : jsstring }.
End WorkoutRequest.

(** [InsertUser], the record submitted for registration, with the fields
    of the object literal [completeUserData]. The three fields computed
    with [||] hold a JavaScript value. *)
Module InsertUser.
Record t := {
  username : jsstring;
  password : jsstring;
  age : number;
  gender : jsstring;
  heightFeet : number;
  heightInches : number;
  weight : jsstring;
  fitnessGoal : jsstring;
  experienceLevel : jsstring;
  currentActivityLevel : jsstring;
  workoutPreferences : jsstring;
  motivationFactors : jsstring;
  pastAttempts : number;
  confidenceLevel : number;
  timeCommitment : value;
  obstacles : jsstring;
  stressLevel : value;
  sleepQuality : value;
  dietaryPreferences : jsstring;
  supplementPreferences : jsstring;
  occupationType : jsstring;
  workSchedule : jsstring;
  emotionalDrivers : jsstring;
  personalVision : jsstring;
  readinessAssessment : jsstring;
  injuries : option jsstring;
  medicalConditions : option jsstring;
  additionalNotes : option jsstring }.
End InsertUser.

(** The stored account that [register] answers with. *)
Record User := {
  id : number;
  account : InsertUser.t }.

Definition strings_json (l : list jsstring) : JSON.json :=
  JSON.JArray (map JSON.JString l).

Definition EmotionalDrivers_json (e : EmotionalDrivers) : JSON.json :=
  JSON.JObject
    [ (js "current", strings_json (current e));
      (js "desired", strings_json (desired e));
      (js "impact", JSON.JInt (impact e)) ].

Definition PersonalVision_json (p : PersonalVision) : JSON.json :=
  JSON.JObject
    [ (js "oneYearGoal", JSON.JString (oneYearGoal p));
      (js "visionSatisfaction", JSON.JInt (visionSatisfaction p)) ].

(** The object literal given to [JSON.stringify] for [readinessAssessment]. *)
Definition readiness_json (r : ReadinessAssessment) : JSON.json :=
  JSON.JObject
    [ (js "narrative", JSON.JString (psychologicalNarrative r));
      (js "efficacyBeliefs", JSON.JString (efficacyBeliefs r));
      (js "motivations", JSON.JString (motivations r));
      (js "challenges", JSON.JString (challenges r));
      (js "readinessScore", JSON.JInt (readinessScore r));
      (js "barriers", strings_json (barriers r)) ].

(** The Profile Transformer: the object literal [completeUserData] of
    [handlePsychologicalComplete]. [Number] of a number and [String] of a
    string are the identity. *)
Definition completeUserData
    (initialRegData : RegisterFormData)
    (fitnessData : FitnessAssessmentFormData)
    (assessmentData : PsychologicalAssessmentData)
    (analysis : Analysis.AnalysisResponse) : InsertUser.t :=
  {| InsertUser.username := username initialRegData;
     InsertUser.password := password initialRegData;
     InsertUser.age := age (basicInfo fitnessData);
     InsertUser.gender := gender (basicInfo fitnessData);
     InsertUser.heightFeet := heightFeet (basicInfo fitnessData);
     InsertUser.heightInches := heightInches (basicInfo fitnessData);
     InsertUser.weight := weight (basicInfo fitnessData);
     InsertUser.fitnessGoal := fitnessGoal (fitnessProfile fitnessData);
     InsertUser.experienceLevel := experienceLevel (fitnessProfile fitnessData);
     InsertUser.currentActivityLevel :=
       currentActivityLevel (fitnessProfile fitnessData);
     InsertUser.workoutPreferences :=
       JSON.stringify_strings (workoutPreferences (fitnessProfile fitnessData));
     InsertUser.motivationFactors :=
       JSON.stringify_strings
         (Analysis.underlyingMotivations (Analysis.motivationAnalysis analysis));
     InsertUser.pastAttempts := of_Z 0;
     InsertUser.confidenceLevel :=
       Analysis.readinessScore (Analysis.motivationAnalysis analysis);
     InsertUser.timeCommitment :=
       timeCommitment_of (timeCommitment (lifestyle fitnessData));
     InsertUser.obstacles :=
       join (js ", ") (barriers (readinessAssessment assessmentData));
     InsertUser.stressLevel := stressLevel_of (stressLevel (lifestyle fitnessData));
     InsertUser.sleepQuality := sleepQuality_of (sleepQuality (lifestyle fitnessData));
     InsertUser.dietaryPreferences := js "balanced";
     InsertUser.supplementPreferences := js "none";
     InsertUser.occupationType := occupationType (lifestyle fitnessData);
     InsertUser.workSchedule := workSchedule (lifestyle fitnessData);
     InsertUser.emotionalDrivers :=
       JSON.stringify (EmotionalDrivers_json (emotionalDrivers assessmentData));
     InsertUser.personalVision :=
       JSON.stringify (PersonalVision_json (personalVision assessmentData));
     InsertUser.readinessAssessment :=
       JSON.stringify (readiness_json (readinessAssessment assessmentData));
     InsertUser.injuries := None;
     InsertUser.medicalConditions := None;
     InsertUser.additionalNotes := None |}.

(** ** The page: state, effects and remote calls *)

(** [AssessmentStep]; [results_step] is the step ["results"]. *)
Inductive AssessmentStep :=
  | fitness
  | psychological
  | analyzing
  | results_step.

(** One field per [useState] hook of [AuthPage]. *)
Record PageState := {
  showAssessment : bool;
  assessmentStep : AssessmentStep;
  initialRegData : option RegisterFormData;
  fitnessData : option FitnessAssessmentFormData;
  results : option Results.ComprehensiveResults;
  isAnalyzing : bool }.

(** The values of the hooks at the first render. *)
Definition initial_state : PageState :=
  {| showAssessment := false;
     assessmentStep := fitness;
     initialRegData := None;
     fitnessData := None;
     results := None;
     isAnalyzing := false |}.

(** What a rejected call throws: the [TypeError] of a failed [fetch], some
    other [Error] object, or, for a response that is not [ok], its body,
    with the text of its [error] property when that is a non-empty string. *)
Inductive thrown :=
  | FailedToFetch
  | ErrorObject (msg : jsstring)
  | ErrorBody (error : option jsstring).

Inductive outcome (A : Type) :=
  | Fulfilled (a : A)
  | Rejected (e : thrown).
Arguments Fulfilled {A} a.
Arguments Rejected {A} e.

(** The four endpoints of [ApiService] that the pipeline calls. *)
Inductive endpoint :=
  | CheckUsername (name : jsstring)
  | AnalyzeAssessment (body : AnalyzeRequest.t)
  | GenerateWorkout (body : WorkoutRequest.t)
  | Register (body : InsertUser.t).

Inductive event :=
  | Request (e : endpoint)          (* [fetch] is called *)
  | Settled (e : endpoint) (ok : bool)  (* the awaited promise settles *)
  | Toast (title description : jsstring) (destructive : bool)
  | ConsoleError (e : thrown)
  | SetUser (u : User)              (* the auth store *)
  | Navigate (href : jsstring).     (* [window.location.href = href] *)

(** The server: what [fetch] and [handleResponse] give for each request. *)
Record Remote := {
  remote_checkUsername : jsstring -> outcome bool;
  remote_analyzeAssessment : AnalyzeRequest.t -> outcome Analysis.AnalysisResponse;
  remote_generateWorkout : WorkoutRequest.t -> outcome WorkoutPlanResponse;
  remote_register : InsertUser.t -> outcome User }.

(** Handlers run in a monad of page state, thrown values and a trace. *)
Definition M (A : Type) : Type :=
  PageState -> outcome A * PageState * list event.

Definition ret {A} (a : A) : M A := fun st => (Fulfilled a, st, []).

Definition bind {A B} (m : M A) (k : A -> M B) : M B :=
  fun st =>
    match m st with
    | (Fulfilled a, st1, tr1) =>
        let '(r, st2, tr2) := k a st1 in (r, st2, tr1 ++ tr2)
    | (Rejected e, st1, tr1) => (Rejected e, st1, tr1)
    end.

#[global] Instance M_ret : MRet M := @ret.
#[global] Instance M_bind : MBind M := fun A B k m => bind m k.

Definition throw {A} (e : thrown) : M A := fun st => (Rejected e, st, []).
Definition emit (ev : event) : M unit := fun st => (Fulfilled tt, st, [ev]).

(** [try { body } catch (error) { handler } finally { final }] *)
Definition try_catch_finally {A} (body : M A) (handler : thrown -> M A)
    (final : M unit) : M A :=
  fun st =>
    let '(r1, st1, tr1) :=
      match body st with
      | (Fulfilled a, st1, tr1) => (Fulfilled a, st1, tr1)
      | (Rejected e, st1, tr1) =>
          let '(r, st2, tr2) := handler e st1 in (r, st2, tr1 ++ tr2)
      end in
    match final st1 with
    | (Fulfilled _, st2, tr2) => (r1, st2, tr1 ++ tr2)
    | (Rejected e, st2, tr2) => (Rejected e, st2, tr1 ++ tr2)
    end.

(** [try { body } catch (error) { handler }] *)
Definition try_catch {A} (body : M A) (handler : thrown -> M A) : M A :=
  try_catch_finally body handler (ret tt).

(** The state setters. *)
Definition setShowAssessment (b : bool) : M unit := fun st =>
  (Fulfilled tt,
   {| showAssessment := b; assessmentStep := assessmentStep st;
      initialRegData := initialRegData st; fitnessData := fitnessData st;
      results := results st; isAnalyzing := isAnalyzing st |}, []).
Definition setAssessmentStep (s : AssessmentStep) : M unit := fun st =>
  (Fulfilled tt,
   {| showAssessment := showAssessment st; assessmentStep := s;
      initialRegData := initialRegData st; fitnessData := fitnessData st;
      results := results st; isAnalyzing := isAnalyzing st |}, []).
Definition setInitialRegData (d : option RegisterFormData) : M unit := fun st =>
  (Fulfilled tt,
   {| showAssessment := showAssessment st; assessmentStep := assessmentStep st;
      initialRegData := d; fitnessData := fitnessData st;
      results := results st; isAnalyzing := isAnalyzing st |}, []).
Definition setFitnessData (d : option FitnessAssessmentFormData) : M unit := fun st =>
  (Fulfilled tt,
   {| showAssessment := showAssessment st; assessmentStep := assessmentStep st;
      initialRegData := initialRegData st; fitnessData := d;
      results := results st; isAnalyzing := isAnalyzing st |}, []).
Definition setResults (r : option Results.ComprehensiveResults) : M unit := fun st =>
  (Fulfilled tt,
   {| showAssessment := showAssessment st; assessmentStep := assessmentStep st;
      initialRegData := initialRegData st; fitnessData := fitnessData st;
      results := r; isAnalyzing := isAnalyzing st |}, []).
Definition setIsAnalyzing (b : bool) : M unit := fun st =>
  (Fulfilled tt,
   {| showAssessment := showAssessment st; assessmentStep := assessmentStep st;
      initialRegData := initialRegData st; fitnessData := fitnessData st;
      results := results st; isAnalyzing := b |}, []).

(** The values of the hooks that the handler closes over. *)
Definition closure : M PageState := fun st => (Fulfilled st, st, []).

Definition toast (title description : jsstring) (destructive : bool) : M unit :=
  emit (Toast title description destructive).

(** *** [ApiService] *)

(** [getErrorMessage] *)
Definition getErrorMessage (error : thrown) : jsstring :=
  match error with
  | ErrorBody (Some text) => text
  | ErrorBody None => js "An unexpected error occurred"
  | ErrorObject msg => msg
  | FailedToFetch => js "Failed to fetch"
  end.

(** [request]: the call is made and awaited; a failure is reported by a
    toast of the service and thrown again. *)
Definition request {A} (e : endpoint) (answer : outcome A) : M A :=
  try_catch
    (emit (Request e);;
     match answer with
     | Fulfilled a => emit (Settled e true);; ret a
     | Rejected err => emit (Settled e false);; throw err
     end)
    (fun error =>
       match error with
       | FailedToFetch =>
           toast (js "Connection Error")
             (js "Unable to connect to the server. Please check your internet connection.")
             true;;
           throw error
       | _ =>
           toast (js "Error") (getErrorMessage error) true;;
           throw error
       end).

Section WithRemote.

Variable server : Remote.

Definition api_checkUsername (name : jsstring) : M bool :=
  request (CheckUsername name) (remote_checkUsername server name).
Definition api_analyzeAssessment (data : AnalyzeRequest.t) : M Analysis.AnalysisResponse :=
  request (AnalyzeAssessment data) (remote_analyzeAssessment server data).
Definition api_generateWorkout (data : WorkoutRequest.t) : M WorkoutPlanResponse :=
  request (GenerateWorkout data) (remote_generateWorkout server data).
Definition api_register (data : InsertUser.t) : M User :=
  request (Register data) (remote_register server data).

(** [registerMutation.mutateAsync] of [hooks/use-auth.ts]: [onSuccess] runs
    before the promise resolves. *)
Definition registerMutation_mutateAsync (data : InsertUser.t) : M User :=
  u ← api_register data;
  emit (SetUser u);;
  emit (Navigate (js "/dashboard"));;
  ret u.

(** *** The handlers of [AuthPage] *)

Definition handleInitialRegister (data : RegisterFormData) : M unit :=
  try_catch
    (available ← api_checkUsername (username data);
     if negb available then
       toast (js "Registration Error") (js "Username already exists") true
     else
       setInitialRegData (Some data);;
       setShowAssessment true)
    (fun error =>
       toast (js "Error") (js "Failed to check username availability") true).

Definition handleFitnessComplete (data : FitnessAssessmentFormData) : M unit :=
  setFitnessData (Some data);;
  setAssessmentStep psychological.

Definition analyze_request (fitnessData : FitnessAssessmentFormData)
    (assessmentData : PsychologicalAssessmentData) : AnalyzeRequest.t :=
  let r := readinessAssessment assessmentData in
  {| AnalyzeRequest.psychologicalNarrative := psychologicalNarrative r;
     AnalyzeRequest.efficacyBeliefs := efficacyBeliefs r;
     AnalyzeRequest.motivations := motivations r;
     AnalyzeRequest.challenges := challenges r;
     AnalyzeRequest.readinessScore := readinessScore r;
     AnalyzeRequest.userData :=
       {| AnalyzeRequest.age := age (basicInfo fitnessData);
          AnalyzeRequest.experienceLevel := experienceLevel (fitnessProfile fitnessData);
          AnalyzeRequest.currentActivityLevel :=
            currentActivityLevel (fitnessProfile fitnessData);
          AnalyzeRequest.sleepQuality := sleepQuality (lifestyle fitnessData);
          AnalyzeRequest.stressLevel := stressLevel (lifestyle fitnessData);
          AnalyzeRequest.workoutPreferences :=
            workoutPreferences (fitnessProfile fitnessData);
          AnalyzeRequest.timeCommitment := timeCommitment (lifestyle fitnessData) |} |}.

Definition workout_request (fitnessData : FitnessAssessmentFormData)
    (assessmentData : PsychologicalAssessmentData) : WorkoutRequest.t :=
  {| WorkoutRequest.fitnessGoal := fitnessGoal (fitnessProfile fitnessData);
     WorkoutRequest.experienceLevel := experienceLevel (fitnessProfile fitnessData);
     WorkoutRequest.age := age (basicInfo fitnessData);
     WorkoutRequest.gender := gender (basicInfo fitnessData);
     WorkoutRequest.currentActivityLevel :=
       currentActivityLevel (fitnessProfile fitnessData);
     WorkoutRequest.workoutPreferences :=
       workoutPreferences (fitnessProfile fitnessData);
     WorkoutRequest.obstacles := barriers (readinessAssessment assessmentData);
     WorkoutRequest.timeCommitment := timeCommitment (lifestyle fitnessData) |}.

Definition comprehensive_results (analysis : Analysis.AnalysisResponse)
    (workoutPlan : WorkoutPlanResponse) : Results.ComprehensiveResults :=
  {| Results.motivationAnalysis := Analysis.motivationAnalysis analysis;
     Results.milestones := Analysis.milestones analysis;
     Results.successPrediction := Analysis.successPrediction analysis;
     Results.timelinePrediction := Analysis.timelinePrediction analysis;
     Results.workoutPlan := Some workoutPlan |}.

(** The title of the last toast as the source file holds it. *)
Definition success_title : jsstring :=
  js "Success! " ++ [240; 376; 381; 8240]%N.

Definition handlePsychologicalComplete
    (assessmentData : PsychologicalAssessmentData) : M unit :=
  hooks ← closure;
  match initialRegData hooks, fitnessData hooks with
  | Some initialRegData, Some fitnessData =>
      try_catch_finally
        (setIsAnalyzing true;;
         setAssessmentStep analyzing;;
         analysis ← api_analyzeAssessment (analyze_request fitnessData assessmentData);
         workoutPlan ← api_generateWorkout (workout_request fitnessData assessmentData);
         setResults (Some (comprehensive_results analysis workoutPlan));;
         setAssessmentStep results_step;;
         _ ← registerMutation_mutateAsync
                (completeUserData initialRegData fitnessData assessmentData analysis);
         toast success_title
           (js "Your account has been created. Welcome to your fitness journey!")
           false)
        (fun error =>
           emit (ConsoleError error);;
           toast (js "Error")
             (match error with
              | FailedToFetch => js "Failed to fetch"
              | ErrorObject msg => msg
              | ErrorBody _ => js "Failed to complete registration"
              end)
             true;;
           setShowAssessment false;;
           setInitialRegData None;;
           setFitnessData None;;
           setAssessmentStep fitness)
        (setIsAnalyzing false)
  | _, _ => ret tt
  end.

(** The click handler of the button [Continue to Dashboard]. *)
Definition handleContinue : M unit :=
  setResults None;;
  setShowAssessment false.

End WithRemote.

(** What the page renders when no user is logged in. *)
Inductive View :=
  | AuthForms
  | FitnessAssessmentCard
  | PsychologicalAssessmentCard
  | AnalyzingCard
  | ResultsCard (r : Results.ComprehensiveResults)
  | EmptyPage.

Definition render (st : PageState) : View :=
  if showAssessment st then
    match assessmentStep st with
    | fitness => FitnessAssessmentCard
    | psychological => PsychologicalAssessmentCard
    | analyzing => AnalyzingCard
    | results_step =>
        match results st with
        | Some r => ResultsCard r
        | None => EmptyPage
        end
    end
  else AuthForms.

(** The [onChange] handlers of the two text areas of
    [PsychologicalAssessment]: the list given to [field.onChange] for the
    text [e.target.value]. *)
Definition barriers_onChange (value : jsstring) : list jsstring :=
  filter (fun line => trim line ≠ []) (split 10%N value).

Definition supportSystem_onChange (value : jsstring) : list jsstring :=
  filter (fun line => trim line ≠ []) (split 10%N value).

(** ** The end-to-end scenario *)

Module Scenario.

Definition credential : RegisterFormData :=
  {| username := js "alex"; password := js "correct horse" |}.

Definition fitnessInput : FitnessAssessmentFormData :=
  {| basicInfo :=
       {| age := of_Z 30; gender := js "male"; heightFeet := of_Z 5;
          heightInches := of_Z 10; weight := js "180" |};
     fitnessProfile :=
       {| fitnessGoal := js "muscle_gain"; experienceLevel := js "intermediate";
          currentActivityLevel := js "moderately_active";
          workoutPreferences := [js "Strength Training"] |};
     lifestyle :=
       {| timeCommitment := js "3-4_hours"; occupationType := js "sedentary";
          workSchedule := js "regular"; sleepQuality := js "good";
          stressLevel := js "moderate" |} |}.

Definition psychologicalInput : PsychologicalAssessmentData :=
  {| emotionalDrivers :=
       {| current := [js "Hopeful"]; desired := [js "Strong"]; impact := 5 |};
     personalVision :=
       {| oneYearGoal := js "bench my body weight"; visionSatisfaction := 5 |};
     readinessAssessment :=
       {| efficacyBeliefs := js "I can do it";
          motivations := js "health";
          challenges := js "time";
          readinessScore := 7;
          barriers := [js "time management"];
          supportSystem := [];
          psychologicalNarrative := js "ready to start" |} |}.

Definition analysis : Analysis.AnalysisResponse :=
  {| Analysis.motivationAnalysis :=
       {| Analysis.underlyingMotivations := [js "health"; js "strength"];
          Analysis.readinessScore := of_Z 72;
          Analysis.analysisFactors :=
            {| Analysis.motivation := of_Z 80; Analysis.commitment := of_Z 70;
               Analysis.fitnessLevel := of_Z 60; Analysis.lifestyle := of_Z 65;
               Analysis.narrativeFactor := of_Z 75 |} |};
     Analysis.milestones :=
       {| Analysis.shortTerm := [js "three sessions a week"];
          Analysis.midTerm := []; Analysis.longTerm := [];
          Analysis.explanation := js "start small" |};
     Analysis.successPrediction :=
       {| Analysis.successProbability := of_Z 68; Analysis.confidenceScore := of_Z 55;
          Analysis.keyFactors := []; Analysis.recommendations := [] |};
     Analysis.timelinePrediction :=
       {| Analysis.estimatedWeeks := of_Z 24; Analysis.tl_confidenceScore := of_Z 50;
          Analysis.tl_keyFactors := []; Analysis.tl_recommendations := [] |} |}.

Definition plan : WorkoutPlanResponse :=
  {| message := js "Push, pull, legs"; biology := None; psychology := None;
     suggestions := [js "log every session"] |}.

Definition record : InsertUser.t :=
  completeUserData credential fitnessInput psychologicalInput analysis.

(** A server on which every call succeeds, and the three on which the
    analysis, the synthesis or the registration is refused. *)
Definition server_ok : Remote :=
  {| remote_checkUsername := fun _ => Fulfilled true;
     remote_analyzeAssessment := fun _ => Fulfilled analysis;
     remote_generateWorkout := fun _ => Fulfilled plan;
     remote_register := fun d => Fulfilled {| id := of_Z 1; account := d |} |}.

Definition taken : thrown := ErrorBody (Some (js "Username already exists")).

Definition server_analysis_down : Remote :=
  {| remote_checkUsername := fun _ => Fulfilled true;
     remote_analyzeAssessment := fun _ => Rejected FailedToFetch;
     remote_generateWorkout := fun _ => Fulfilled plan;
     remote_register := fun d => Fulfilled {| id := of_Z 1; account := d |} |}.

Definition server_synthesis_down : Remote :=
  {| remote_checkUsername := fun _ => Fulfilled true;
     remote_analyzeAssessment := fun _ => Fulfilled analysis;
     remote_generateWorkout := fun _ => Rejected FailedToFetch;
     remote_register := fun d => Fulfilled {| id := of_Z 1; account := d |} |}.

Definition server_register_refused : Remote :=
  {| remote_checkUsername := fun _ => Fulfilled true;
     remote_analyzeAssessment := fun _ => Fulfilled analysis;
     remote_generateWorkout := fun _ => Fulfilled plan;
     remote_register := fun _ => Rejected taken |}.

Definition server_name_taken : Remote :=
  {| remote_checkUsername := fun _ => Fulfilled false;
     remote_analyzeAssessment := fun _ => Fulfilled analysis;
     remote_generateWorkout := fun _ => Fulfilled plan;
     remote_register := fun _ => Rejected taken |}.

Definition server_unreachable : Remote :=
  {| remote_checkUsername := fun _ => Rejected FailedToFetch;
     remote_analyzeAssessment := fun _ => Rejected FailedToFetch;
     remote_generateWorkout := fun _ => Rejected FailedToFetch;
     remote_register := fun _ => Rejected FailedToFetch |}.

(** One run of the pipeline from the first render: the credential form,
    the fitness form, the psychological form. *)
Definition pipeline (server : Remote) : M unit :=
  handleInitialRegister server credential;;
  handleFitnessComplete fitnessInput;;
  handlePsychologicalComplete server psychologicalInput.

End Scenario.

(** ** Vocabulary of the statements *)

(** The toast of [ApiService.request] for a thrown value. *)
Definition service_toast (e : thrown) : event :=
  match e with
  | FailedToFetch =>
      Toast (js "Connection Error")
        (js "Unable to connect to the server. Please check your internet connection.")
        true
  | _ => Toast (js "Error") (getErrorMessage e) true
  end.

(** The toast of the [catch] block of [handlePsychologicalComplete]. *)
Definition catch_toast (e : thrown) : event :=
  Toast (js "Error")
    (match e with
     | FailedToFetch => js "Failed to fetch"
     | ErrorObject msg => msg
     | ErrorBody _ => js "Failed to complete registration"
     end) true.

(** The hooks that the [catch] and [finally] blocks write, at their reset
    values; [results] is not among them. *)
Definition rolled_back (st : PageState) : PageState :=
  {| showAssessment := false; assessmentStep := fitness; initialRegData := None;
     fitnessData := None; results := results st; isAnalyzing := false |}.

(** The state after an accepted credential. *)
Definition credential_stored (data : RegisterFormData) (st : PageState) : PageState :=
  {| showAssessment := true; assessmentStep := assessmentStep st;
     initialRegData := Some data; fitnessData := fitnessData st;
     results := results st; isAnalyzing := isAnalyzing st |}.

(** The number of remote calls issued and not yet settled. *)
Fixpoint in_flight (tr : list event) : Z :=
  match tr with
  | [] => 0
  | Request _ :: r => in_flight r + 1
  | Settled _ _ :: r => in_flight r - 1
  | _ :: r => in_flight r
  end.

(** At most one call is in flight at any point of the trace, and when the
    synthesis (the registration) is requested no call is in flight and the
    analysis (the synthesis) has settled with success. *)
Definition strictly_sequential (tr : list event) : Prop :=
  (forall pre post, tr = pre ++ post -> (0 <= in_flight pre <= 1)%Z) /\
  (forall pre post b, tr = pre ++ Request (GenerateWorkout b) :: post ->
     in_flight pre = 0%Z /\ exists a, Settled (AnalyzeAssessment a) true ∈ pre) /\
  (forall pre post b, tr = pre ++ Request (Register b) :: post ->
     in_flight pre = 0%Z /\ exists a, Settled (GenerateWorkout a) true ∈ pre).

Definition state_of {A} (r : outcome A * PageState * list event) : PageState := r.1.2.
Definition trace_of {A} (r : outcome A * PageState * list event) : list event := r.2.

(** The double quote, for the examples. *)
Definition dq : jsstring := [34%N].

(** The state of the scenario when the psychological form is submitted. *)
Definition forms_filled : PageState :=
  {| showAssessment := true; assessmentStep := psychological;
     initialRegData := Some Scenario.credential;
     fitnessData := Some Scenario.fitnessInput;
     results := None; isAnalyzing := false |}.

(** ** The whole onboarding run *)


(** The toasts of a trace. *)
Definition toasts (tr : list event) : list event :=
  List.filter (fun ev => match ev with Toast _ _ _ => true | _ => false end) tr.

Definition destructive (ev : event) : bool :=
  match ev with Toast _ _ d => d | _ => false end.

Definition fulfilled {A} (o : outcome A) : bool :=
  match o with Fulfilled _ => true | Rejected _ => false end.

(** The value of the text area for a stored list: [field.value?.join("\n")]. *)
Definition textarea_value (lines : list jsstring) : jsstring := join [10%N] lines.


(** A code unit that is no control character. *)
Definition printable (c : code_unit) : Prop := (32 <= c)%N.

(** ** The other components *)

(** *** Effects over any state and any kind of event *)

Module Eff.

Definition t (S E A : Type) : Type := S -> outcome A * S * list E.

Definition ret {S E A} (a : A) : t S E A := fun st => (Fulfilled a, st, []).

Definition bind {S E A B} (m : t S E A) (k : A -> t S E B) : t S E B :=
  fun st =>
    match m st with
    | (Fulfilled a, st1, tr1) =>
        let '(r, st2, tr2) := k a st1 in (r, st2, tr1 ++ tr2)
    | (Rejected e, st1, tr1) => (Rejected e, st1, tr1)
    end.

Definition throw {S E A} (e : thrown) : t S E A := fun st => (Rejected e, st, []).
Definition emit {S E} (ev : E) : t S E unit := fun st => (Fulfilled tt, st, [ev]).
Definition get {S E} : t S E S := fun st => (Fulfilled st, st, []).
Definition modify {S E} (f : S -> S) : t S E unit := fun st => (Fulfilled tt, f st, []).

(** [await p] for a promise that settles as [o]. *)
Definition await {S E A} (o : outcome A) : t S E A :=
  match o with
  | Fulfilled a => ret a
  | Rejected e => throw e
  end.

(** [try { body } catch (error) { handler } finally { final }] *)
Definition try_catch_finally {S E A} (body : t S E A) (handler : thrown -> t S E A)
    (final : t S E unit) : t S E A :=
  fun st =>
    let '(r1, st1, tr1) :=
      match body st with
      | (Fulfilled a, st1, tr1) => (Fulfilled a, st1, tr1)
      | (Rejected e, st1, tr1) =>
          let '(r, st2, tr2) := handler e st1 in (r, st2, tr1 ++ tr2)
      end in
    match final st1 with
    | (Fulfilled _, st2, tr2) => (r1, st2, tr1 ++ tr2)
    | (Rejected e, st2, tr2) => (Rejected e, st2, tr1 ++ tr2)
    end.

Definition try_catch {S E A} (body : t S E A) (handler : thrown -> t S E A) : t S E A :=
  try_catch_finally body handler (ret tt).

End Eff.

#[global] Instance Eff_ret {S E} : MRet (Eff.t S E) := @Eff.ret S E.
#[global] Instance Eff_bind {S E} : MBind (Eff.t S E) := fun A B k m => Eff.bind m k.

(** *** [PsychologicalAssessment]: the emotion buttons and the three steps *)

Module PsychForm.

(** The [onClick] handler of an emotion button: the list given to
    [field.onChange] for the stored [field.value]. *)
Definition emotion_onClick (value : option (list jsstring)) (emotion : jsstring)
    : list jsstring :=
  let current := default [] value in
  if bool_decide (emotion ∈ current)
  then filter (fun e => e ≠ emotion) current
  else current ++ [emotion].

Definition currentEmotionOptions : list jsstring :=
  [js "Frustrated"; js "Hopeful"; js "Determined"; js "Anxious";
   js "Excited"; js "Overwhelmed"; js "Confident"; js "Uncertain";
   js "Insecure"; js "Motivated"; js "Stressed"; js "Ready"].

Definition desiredEmotionOptions : list jsstring :=
  [js "Empowered"; js "Accomplished"; js "Energized"; js "Proud";
   js "Balanced"; js "Strong"; js "Disciplined"; js "Inspired";
   js "Resilient"; js "Focused"; js "Confident"; js "Fulfilled"].

(** The selection after a sequence of clicks, from the default value. *)
Definition clicks (emotions : list jsstring) : list jsstring :=
  fold_left (fun value emotion => emotion_onClick (Some value) emotion) emotions [].

(** The two hooks of the component. *)
Record State := {
  step : Z;
  isSubmitting : bool }.

Definition initial : State := {| step := 1; isSubmitting := false |}.

Inductive event :=
  | Trigger (fields : list string)       (* [form.trigger(fields)] *)
  | Toast (title description : jsstring) (destructive : bool)
  | ConsoleError
  | Complete (data : PsychologicalAssessmentData).  (* [onComplete(formData)] *)

(** The form library and the parent component: what [form.trigger]
    resolves to, what [form.getValues()] returns, how the promise of
    [onComplete] settles. *)
Record Env := {
  trigger : list string -> outcome bool;
  getValues : PsychologicalAssessmentData;
  onComplete : PsychologicalAssessmentData -> outcome unit }.

Abbreviation M := (Eff.t State event).

(** The values of the hooks that a handler closes over. *)
Definition closure : M State := Eff.get.

Definition setStep (f : Z -> Z) : M unit :=
  Eff.modify (fun st => {| step := f (step st); isSubmitting := isSubmitting st |}).
Definition setIsSubmitting (b : bool) : M unit :=
  Eff.modify (fun st => {| step := step st; isSubmitting := b |}).

Definition step1_fields : list string :=
  ["emotionalDrivers.current"; "emotionalDrivers.desired"; "emotionalDrivers.impact"].
Definition step2_fields : list string :=
  ["personalVision.oneYearGoal"; "personalVision.visionSatisfaction";
   "readinessAssessment.efficacyBeliefs"; "readinessAssessment.motivations";
   "readinessAssessment.challenges"].
Definition step3_fields : list string :=
  ["readinessAssessment.readinessScore"; "readinessAssessment.barriers";
   "readinessAssessment.supportSystem"; "readinessAssessment.psychologicalNarrative"].

Section WithEnv.
Variable env : Env.

Definition form_trigger (fields : list string) : M bool :=
  Eff.emit (Trigger fields);; Eff.await (trigger env fields).

Definition validateCurrentStep : M bool :=
  hooks ← closure;
  Eff.try_catch
    (isValid ←
       (if (step hooks =? 1)%Z then form_trigger step1_fields
        else if (step hooks =? 2)%Z then form_trigger step2_fields
        else if (step hooks =? 3)%Z then form_trigger step3_fields
        else mret true);
     (if negb isValid then
        Eff.emit ConsoleError;;
        Eff.emit (Toast (js "Please check your inputs")
                    (js "Some required fields are missing or invalid.") true)
      else mret tt);;
     mret isValid)
    (fun error => Eff.emit ConsoleError;; mret false).

Definition handleSubmit : M unit :=
  hooks ← closure;
  if isSubmitting hooks then mret tt
  else
    Eff.try_catch_finally
      (setIsSubmitting true;;
       isValid ← validateCurrentStep;
       if (isValid : bool) then
         let formData := getValues env in
         if (step hooks <? 3)%Z then setStep (fun prev => prev + 1)%Z
         else Eff.emit (Complete formData);; Eff.await (onComplete env formData)
       else mret tt)
      (fun error =>
         Eff.emit ConsoleError;;
         Eff.emit (Toast (js "Error") (js "Something went wrong. Please try again.") true))
      (setIsSubmitting false).

End WithEnv.

Definition handlePrevious : M unit :=
  hooks ← closure;
  if (1 <? step hooks)%Z then setStep (fun prev => prev - 1)%Z else mret tt.

(** What the user does: submits the form, the library and the parent
    answering as [env], or clicks [Previous], which is rendered from the
    second step on. *)
Inductive action :=
  | Submit (env : Env)
  | Previous.

Definition perform (st : State) (a : action) : State :=
  match a with
  | Submit env => (handleSubmit env st).1.2
  | Previous => (handlePrevious st).1.2
  end.

(** A form library that finds every field valid and a parent whose
    [onComplete] resolves. *)
Definition accepting (data : PsychologicalAssessmentData) : Env :=
  {| trigger := fun _ => Fulfilled true;
     getValues := data;
     onComplete := fun _ => Fulfilled tt |}.

End PsychForm.

(** *** [FitnessAssessment]: the three steps *)

Module FitnessForm.

(** [onSubmit], called by the form library with the validated values:
    the next value of [step] and the value handed to [onComplete], if any. *)
Definition onSubmit (step : Z) (data : FitnessAssessmentFormData)
    : Z * option FitnessAssessmentFormData :=
  if (step <? 3)%Z then ((step + 1)%Z, None) else (step, Some data).

(** The button [Previous], rendered when [step > 1]. *)
Definition previous (step : Z) : option Z :=
  if (1 <? step)%Z then Some (step - 1)%Z else None.

Inductive action :=
  | Submit (data : FitnessAssessmentFormData)
  | Previous.

(** One action of the user: the new step and what [onComplete] received. *)
Definition perform (step : Z) (a : action) : Z * option FitnessAssessmentFormData :=
  match a with
  | Submit data => onSubmit step data
  | Previous => (default step (previous step), None)
  end.

(** A sequence of actions from a step: the last step and the values handed
    to [onComplete], in order. *)
Fixpoint run (step : Z) (actions : list action)
    : Z * list FitnessAssessmentFormData :=
  match actions with
  | [] => (step, [])
  | a :: rest =>
      let '(step', completed) := perform step a in
      let '(last, more) := run step' rest in
      (last, option_list completed ++ more)
  end.

(** The number of submissions among the actions. *)
Definition submits (actions : list action) : Z :=
  Z.of_nat (length (List.filter
                      (fun a => match a with Submit _ => true | Previous => false end)
                      actions)).

End FitnessForm.

(** *** [ProtectedRoute]: the session query *)

(** [s.startsWith(prefix)] *)
Fixpoint startsWith (s prefix : jsstring) {struct prefix} : bool :=
  match prefix, s with
  | [], _ => true
  | p :: ps, c :: cs => (c =? p)%N && startsWith cs ps
  | _ :: _, [] => false
  end.

(** [s.includes(sub)] *)
Fixpoint includes (s sub : jsstring) : bool :=
  startsWith s sub
  || match s with
     | [] => false
     | _ :: rest => includes rest sub
     end.

Module ProtectedRoute.

(** What [fetch('/api/user')] gives: a thrown value, or a response with
    its [ok] flag, its status and the way [response.json()] settles. *)
Inductive fetched (A : Type) :=
  | Failed (e : thrown)
  | Response (ok : bool) (status : Z) (json : outcome A).
Arguments Failed {A} e.
Arguments Response {A} ok status json.

(** [queryFn] *)
Definition queryFn {A} (r : fetched A) : outcome A :=
  match r with
  | Failed FailedToFetch =>
      Rejected (ErrorObject
                  (js "Unable to connect to server. Please check your connection."))
  | Failed e => Rejected e
  | Response false status _ =>
      if (status =? 401)%Z
      then Rejected (ErrorObject (js "Session expired. Please log in again."))
      else Rejected (ErrorObject (js "Failed to verify session"))
  | Response true _ json => json
  end.

(** [error instanceof Error], with the message. *)
Definition Error_message (e : thrown) : option jsstring :=
  match e with
  | FailedToFetch => Some (js "Failed to fetch")
  | ErrorObject msg => Some msg
  | ErrorBody _ => None
  end.

(** [retry] *)
Definition retry (failureCount : Z) (error : thrown) : bool :=
  match Error_message error with
  | Some msg =>
      if includes msg (js "Session expired") then false else (failureCount <? 3)%Z
  | None => (failureCount <? 3)%Z
  end.

(** [retryDelay], for an attempt index [0, 1, 2, ...]. *)
Definition retryDelay (attemptIndex : N) : Z :=
  Z.min (1000 * 2 ^ Z.of_N attemptIndex) 30000.

End ProtectedRoute.

(** *** [useAuth] of [hooks/use-auth.ts], [handleLogin] and the effect of
    [ProtectedRoute] *)

Module Session.

(** The auth store and the session storage of the browser. *)
Record State := {
  user : option User;
  sessionStorage : gmap jsstring jsstring }.

Inductive event :=
  | Request (path : string)
  | Settled (path : string) (ok : bool)
  | Toast (title description : jsstring) (destructive : bool)
  | Navigate (href : jsstring)        (* [window.location.href = href] *)
  | SetLocation (to : jsstring)       (* [setLocation(to)] of the router *)
  | QueryClientClear.

Record Server := {
  login : jsstring -> jsstring -> outcome User;
  logout : outcome unit;
  getCurrentUser : outcome User;
  checkUsername : jsstring -> outcome bool }.

Abbreviation M := (Eff.t State event).

Definition closure : M State := Eff.get.

Definition setUser (u : option User) : M unit :=
  Eff.modify (fun st => {| user := u; sessionStorage := sessionStorage st |}).
Definition setItem (key value : jsstring) : M unit :=
  Eff.modify (fun st =>
    {| user := user st; sessionStorage := <[key := value]> (sessionStorage st) |}).
Definition removeItem (key : jsstring) : M unit :=
  Eff.modify (fun st =>
    {| user := user st; sessionStorage := delete key (sessionStorage st) |}).
Definition getItem (key : jsstring) : M (option jsstring) :=
  st ← closure; mret (sessionStorage st !! key).

Definition toast (title description : jsstring) (destructive : bool) : M unit :=
  Eff.emit (Toast title description destructive).

(** [ApiService.request], over the events of the session. *)
Definition request {A} (path : string) (answer : outcome A) : M A :=
  Eff.try_catch
    (Eff.emit (Request path);;
     match answer with
     | Fulfilled a => Eff.emit (Settled path true);; mret a
     | Rejected err => Eff.emit (Settled path false);; Eff.throw err
     end)
    (fun error =>
       match error with
       | FailedToFetch =>
           toast (js "Connection Error")
             (js "Unable to connect to the server. Please check your internet connection.")
             true;;
           Eff.throw error
       | _ =>
           toast (js "Error") (getErrorMessage error) true;;
           Eff.throw error
       end).

(** The toast of [request] for a thrown value. *)
Definition service_toast (e : thrown) : event :=
  match e with
  | FailedToFetch =>
      Toast (js "Connection Error")
        (js "Unable to connect to the server. Please check your internet connection.")
        true
  | _ => Toast (js "Error") (getErrorMessage e) true
  end.

Section WithServer.
Variable server : Server.

(** [loginMutation.mutateAsync], with its [onSuccess]. *)
Definition loginMutation_mutateAsync (data : RegisterFormData) : M User :=
  u ← request "/api/login" (login server (username data) (password data));
  setUser (Some u);;
  stored ← getItem (js "redirectUrl");
  let redirectUrl :=
    match stored with
    | Some (c :: url) => c :: url
    | _ => js "/dashboard"
    end in
  removeItem (js "redirectUrl");;
  Eff.emit (Navigate redirectUrl);;
  mret u.

(** [logout] *)
Definition useAuth_logout : M unit :=
  Eff.try_catch
    (request "/api/logout" (logout server);;
     setUser None;;
     Eff.emit QueryClientClear;;
     Eff.emit (Navigate (js "/")))
    (fun error =>
       setUser None;;
       Eff.emit (Navigate (js "/"))).

(** [checkSession] *)
Definition checkSession : M bool :=
  Eff.try_catch
    (userData ← request "/api/user" (getCurrentUser server);
     setUser (Some userData);;
     mret true)
    (fun error => setUser None;; mret false).

(** [checkUsername] of the hook. *)
Definition useAuth_checkUsername (name : jsstring) : M bool :=
  Eff.try_catch
    (available ← request "/api/check-username" (checkUsername server name);
     mret (available : bool))
    (fun error => mret false).

(** The title of the toast of [handleLogin] as the source file holds it. *)
Definition welcome_title : jsstring :=
  js "Welcome back! " ++ [240; 376; 8217; 170]%N.

(** [handleLogin] of [AuthPage]. *)
Definition handleLogin (data : RegisterFormData) : M unit :=
  Eff.try_catch
    (loginMutation_mutateAsync data;;
     toast welcome_title (js "Successfully logged in to your account.") false)
    (fun error => mret tt).

End WithServer.

(** The effect of [ProtectedRoute], for the values of [isLoading] and
    [error] of the session query and the [location] of the router. *)
Definition ProtectedRoute_effect (isLoading : bool) (error : option thrown)
    (location : jsstring) : M unit :=
  st ← closure;
  (if negb isLoading && negb (bool_decide (is_Some (user st))) then
     setItem (js "redirectUrl") location;;
     Eff.emit (SetLocation (js "/?error=unauthorized"))
   else mret tt);;
  match error with
  | Some e =>
      toast (js "Authentication Error")
        (default (js "Failed to verify session") (ProtectedRoute.Error_message e))
        true
  | None => mret tt
  end.

(** A server that accepts every login, and the state of a visitor who
    is not logged in. *)
Definition accepting (u : User) : Server :=
  {| login := fun _ _ => Fulfilled u;
     logout := Fulfilled tt;
     getCurrentUser := Fulfilled u;
     checkUsername := fun _ => Fulfilled true |}.

Definition rejecting (e : thrown) : Server :=
  {| login := fun _ _ => Rejected e;
     logout := Rejected e;
     getCurrentUser := Rejected e;
     checkUsername := fun _ => Rejected e |}.

Definition visitor : State := {| user := None; sessionStorage := ∅ |}.

End Session.

(** *** [Chat] *)

Module Chat.

Inductive Role := user_role | assistant_role.

#[global] Instance Role_eq_dec : EqDecision Role.
Proof. solve_decision. Defined.

Record Message := {
  role : Role;
  content : jsstring;
  biology : option jsstring;
  psychology : option jsstring;
  suggestions : option (list jsstring) }.

(** The answer of [/api/chat]. *)
Record Reply := {
  reply_message : jsstring;
  reply_biology : option jsstring;
  reply_psychology : option jsstring;
  reply_suggestions : option (list jsstring) }.

(** The two hooks of the component. *)
Record State := {
  message : jsstring;
  messages : list Message }.

Definition user_message (text : jsstring) : Message :=
  {| role := user_role; content := text; biology := None; psychology := None;
     suggestions := None |}.

(** [handleSend]: the new state and the argument of [chatMutation.mutate],
    if it is called. *)
Definition handleSend (st : State) : State * option jsstring :=
  if bool_decide (trim (message st) = []) then (st, None)
  else ({| message := []; messages := messages st ++ [user_message (message st)] |},
        Some (message st)).

(** [handleSuggestion] *)
Definition handleSuggestion (suggestion : jsstring) (st : State)
    : State * option jsstring :=
  ({| message := message st; messages := messages st ++ [user_message suggestion] |},
   Some suggestion).

(** [onSuccess] of [chatMutation]. *)
Definition onSuccess (response : Reply) (st : State) : State :=
  {| message := message st;
     messages := messages st ++
       [ {| role := assistant_role; content := reply_message response;
            biology := reply_biology response;
            psychology := reply_psychology response;
            suggestions := reply_suggestions response |} ] |}.

Inductive action :=
  | Type_ (text : jsstring)           (* [setMessage(e.target.value)] *)
  | Send
  | Suggest (suggestion : jsstring)
  | Answer (response : Reply).

(** One action: the new state and the text sent to the server, if any. *)
Definition perform (st : State) (a : action) : State * option jsstring :=
  match a with
  | Type_ text => ({| message := text; messages := messages st |}, None)
  | Send => handleSend st
  | Suggest s => handleSuggestion s st
  | Answer r => (onSuccess r st, None)
  end.

Fixpoint run (st : State) (actions : list action) : State * list jsstring :=
  match actions with
  | [] => (st, [])
  | a :: rest =>
      let '(st1, sent) := perform st a in
      let '(st2, more) := run st1 rest in
      (st2, option_list sent ++ more)
  end.

Definition user_texts (l : list Message) : list jsstring :=
  content <$> filter (fun m => role m = user_role) l.

End Chat.

(** ** Proof automation *)

(** Unfolds a handler down to the state function it denotes. *)
Ltac run_handler :=
  unfold handleInitialRegister, handlePsychologicalComplete, closure,
    registerMutation_mutateAsync, api_checkUsername, api_analyzeAssessment,
    api_generateWorkout, api_register, request, try_catch, try_catch_finally;
  unfold mbind, M_bind, bind.

(** Enumerates the prefixes [pre] of an equation [l = pre ++ post] over an
    explicit list [l]. *)
Ltac prefixes H :=
  repeat match type of H with
    | _ :: _ = ?pre ++ _ =>
        destruct pre as [|? pre]; cbn [app] in H;
        [ try discriminate H | injection H as <- H ]
    | [] = ?pre ++ _ => destruct pre; discriminate H || clear H
    end.

(** Proves [strictly_sequential] of an explicit trace. *)
Ltac sequential_trace :=
  unfold strictly_sequential; cbn [snd]; split; [|split];
  [ intros ? ? ? | intros ? ? ? ? | intros ? ? ? ? ];
  match goal with H : _ = _ ++ _ |- _ => prefixes H end; simpl; try lia;
  try (split; [lia | eexists;
                     repeat first [apply list_elem_of_here | apply list_elem_of_further]]).

(** Unfolds a handler of [PsychologicalAssessment]. *)
Ltac run_form :=
  unfold PsychForm.handleSubmit, PsychForm.handlePrevious,
    PsychForm.validateCurrentStep, PsychForm.form_trigger, PsychForm.closure,
    PsychForm.setStep, PsychForm.setIsSubmitting, Eff.try_catch,
    Eff.try_catch_finally, Eff.modify, Eff.emit, Eff.get, Eff.await;
  unfold mbind, mret, Eff_bind, Eff_ret, Eff.bind, Eff.ret, Eff.throw.

(** Splits a run of [handleSubmit] by the step and by what the form
    library and the parent answer. *)
Ltac form_cases env s :=
  run_form; cbn;
  destruct (Z.eqb_spec s 1) as [->|?]; cbn;
  [|destruct (Z.eqb_spec s 2) as [->|?]; cbn;
    [|destruct (Z.eqb_spec s 3) as [->|?]; cbn]];
  repeat match goal with
    | |- context [PsychForm.trigger env ?f] =>
        destruct (PsychForm.trigger env f) as [[|]|?]; cbn
    | |- context [PsychForm.onComplete env ?d] =>
        destruct (PsychForm.onComplete env d) as [[]|?]; cbn
    | |- context [(?a <? 3)%Z] => destruct (Z.ltb_spec a 3); cbn
    end.

(** Unfolds a function of the session. *)
Ltac run_session :=
  unfold Session.handleLogin, Session.loginMutation_mutateAsync,
    Session.useAuth_logout, Session.checkSession, Session.useAuth_checkUsername,
    Session.ProtectedRoute_effect, Session.request, Session.toast, Session.getItem,
    Session.setItem, Session.removeItem, Session.setUser, Session.closure,
    Eff.try_catch, Eff.try_catch_finally, Eff.modify, Eff.emit, Eff.get, Eff.await;
  unfold mbind, mret, Eff_bind, Eff_ret, Eff.bind, Eff.ret, Eff.throw.

(** * Properties *)


(** ** Strings *)

Lemma trimStart_blank s : trimStart s = [] <-> blank s = true.
Proof.
  unfold blank. induction s as [|c s IH]; simpl; [tauto|].
  destruct (is_whitespace c); simpl; [exact IH|]. split; discriminate.
Qed.

Lemma blank_app s t : blank (s ++ t) = blank s && blank t.
Proof. unfold blank. apply forallb_app. Qed.

Lemma blank_rev s : blank (rev s) = blank s.
Proof.
  induction s as [|c s IH]; [reflexivity|].
  simpl rev. rewrite blank_app, IH. unfold blank. simpl.
  rewrite andb_true_r. apply andb_comm.
Qed.

Lemma blank_trimStart s : blank (trimStart s) = blank s.
Proof.
  unfold blank. induction s as [|c s IH]; [reflexivity|]. simpl.
  destruct (is_whitespace c) eqn:E; simpl; [exact IH|]. rewrite E. reflexivity.
Qed.

(** [s.trim()] is empty exactly when [s] holds white space only. *)
Lemma trim_blank s : trim s = [] <-> blank s = true.
Proof.
  unfold trim, trimEnd. split.
  - intros H. apply (f_equal (@rev _)) in H. rewrite rev_involutive in H.
    simpl in H. apply trimStart_blank in H.
    rewrite blank_rev, blank_trimStart in H. exact H.
  - intros H. apply trimStart_blank in H. rewrite H. reflexivity.
Qed.

Lemma split_nonempty sep s : split sep s <> [].
Proof.
  destruct s as [|c s]; simpl; [discriminate|].
  destruct (c =? sep)%N; [discriminate|]. destruct (split sep s); discriminate.
Qed.

(** [s.split(sep).join(sep)] is [s]. *)
Lemma join_split sep s : join [sep] (split sep s) = s.
Proof.
  induction s as [|c s IH]; [reflexivity|]. simpl.
  pose proof (split_nonempty sep s) as Hne.
  destruct (split sep s) as [|seg segs] eqn:E; [contradiction|].
  destruct (N.eqb_spec c sep) as [->|_].
  - change (join [sep] ([] :: seg :: segs)) with ([] ++ [sep] ++ join [sep] (seg :: segs)).
    rewrite IH. reflexivity.
  - destruct segs as [|seg' segs].
    + simpl in *. congruence.
    + change (join [sep] ((c :: seg) :: seg' :: segs))
        with (c :: seg ++ [sep] ++ join [sep] (seg' :: segs)).
      change (join [sep] (seg :: seg' :: segs))
        with (seg ++ [sep] ++ join [sep] (seg' :: segs)) in IH.
      rewrite IH. reflexivity.
Qed.

(** No segment of [s.split(sep)] holds the separator. *)
Lemma split_no_sep sep s : forall seg, seg ∈ split sep s -> sep ∉ seg.
Proof.
  induction s as [|c s IH]; intros seg; simpl.
  - rewrite list_elem_of_singleton. intros ->. apply not_elem_of_nil.
  - destruct (N.eqb_spec c sep) as [->|Hne].
    + rewrite elem_of_cons. intros [->|H]; [apply not_elem_of_nil | auto].
    + destruct (split sep s) as [|seg0 segs] eqn:E.
      * rewrite list_elem_of_singleton. intros ->.
        rewrite list_elem_of_singleton. congruence.
      * rewrite elem_of_cons. intros [->|H].
        -- rewrite elem_of_cons. intros [?|?]; [congruence|].
           eapply IH; [|eassumption]. left.
        -- apply IH. right. exact H.
Qed.

Example split_bucket :
  split 95%N (js "3-4_hours") = [js "3-4"; js "hours"].
Proof. reflexivity. Qed.

Example split_lines :
  split 10%N [97; 10; 10; 98; 10]%N = [[97]; []; [98]; []]%N.
Proof. reflexivity. Qed.

Example trim_example : trim (js "  two words ") = js "two words".
Proof. reflexivity. Qed.

(** Claim C10. Every entry that the two text areas of the psychological
    form hand to the form state, for the barriers and for the support
    system, is a non-blank string: it is not empty, it does not consist of
    white space only, and it holds no line break. This holds for every
    text of the text area. *)
Theorem lines_not_blank (value : jsstring) :
  Forall (fun line => line ≠ [] /\ blank line = false /\ trim line ≠ [] /\ 10%N ∉ line)
         (barriers_onChange value)
  /\ Forall (fun line => line ≠ [] /\ blank line = false /\ trim line ≠ [] /\ 10%N ∉ line)
            (supportSystem_onChange value).
Proof.
  assert (H : forall line,
             line ∈ filter (fun line => trim line ≠ []) (split 10%N value) ->
             line ≠ [] /\ blank line = false /\ trim line ≠ [] /\ 10%N ∉ line).
  { intros line [Htrim Hin]%list_elem_of_filter. repeat split.
    - intros ->. apply Htrim. reflexivity.
    - destruct (blank line) eqn:E; [|reflexivity].
      apply trim_blank in E. contradiction.
    - exact Htrim.
    - eapply split_no_sep. exact Hin. }
  split; apply Forall_forall; exact H.
Qed.

Example lines_example :
  barriers_onChange (js "Work stress" ++ [10; 32; 9; 10; 10]%N ++ js " Self-doubt")
  = [js "Work stress"; js " Self-doubt"].
Proof. vm_compute. reflexivity. Qed.

(** ** [Number] and the three derived fields *)

Example Number_examples :
  Number (js "7") = of_Z 7 /\ Number (js " 12 ") = of_Z 12
  /\ Number [] = of_Z 0 /\ Number (js "0x1f") = of_Z 31
  /\ Number (js "2.50e1") = of_Z 25 /\ Number (js "-.5") = Finite (-1 # 2)
  /\ Number (js "3-4") = NaN /\ Number (js "5-6") = NaN /\ Number (js "7+") = NaN
  /\ Number (js "1-2") = NaN /\ Number (js "hours") = NaN /\ Number (js "1_0") = NaN
  /\ Number (js "+0x10") = NaN /\ Number (js ".") = NaN /\ Number (js "1e") = NaN
  /\ Number (js "-Infinity") = Infinity true.
Proof. vm_compute. repeat split; reflexivity. Qed.

(** The field is always a number other than [NaN]. *)
Lemma timeCommitment_of_number token :
  exists n, timeCommitment_of token = VNumber n /\ n <> NaN.
Proof.
  unfold timeCommitment_of, or_else.
  destruct (truthy _) eqn:E.
  - eexists. split; [reflexivity|]. intros H. rewrite H in E. discriminate.
  - eexists. split; [reflexivity|]. discriminate.
Qed.

(** A token whose part before the first underscore is no numeric literal
    gives [0]. *)
Lemma timeCommitment_of_NaN token :
  Number (hd [] (split 95%N token)) = NaN -> timeCommitment_of token = num 0.
Proof. unfold timeCommitment_of. intros ->. reflexivity. Qed.

Example timeCommitment_of_examples :
  timeCommitment_of (js "7_hours") = num 7
  /\ timeCommitment_of (js "10") = num 10
  /\ timeCommitment_of (js "hours") = num 0
  /\ timeCommitment_of [] = num 0
  /\ timeCommitment_of (js "0_hours") = num 0.
Proof. vm_compute. repeat split; reflexivity. Qed.

(** Claim C1, evaluated on the code. The field [timeCommitment] of the
    record is [Number(token.split('_')[0]) || 0] for every input, and for
    each of the four bucket tokens that the fitness form offers the part
    before the underscore ([1-2], [3-4], [5-6], [7+]) is no numeric
    literal: [Number] gives [NaN] and the field is [0], where the claim
    expects the numeric prefix 3, 5 and 7. *)
Theorem timeCommitment_bucket_tokens :
  (forall reg fit psy ana,
      InsertUser.timeCommitment (completeUserData reg fit psy ana)
      = timeCommitment_of (timeCommitment (lifestyle fit)))
  /\ timeCommitment_of (js "1-2_hours") = num 0
  /\ timeCommitment_of (js "3-4_hours") = num 0
  /\ timeCommitment_of (js "5-6_hours") = num 0
  /\ timeCommitment_of (js "7+_hours") = num 0.
Proof. split; [reflexivity|]. vm_compute. repeat split; reflexivity. Qed.

(** The entries of the two tables. *)
Lemma stressLevel_of_table :
  stressLevel_of (js "low") = num 1
  /\ stressLevel_of (js "moderate") = num 2
  /\ stressLevel_of (js "high") = num 3.
Proof. vm_compute. repeat split; reflexivity. Qed.

Lemma sleepQuality_of_table :
  sleepQuality_of (js "poor") = num 1
  /\ sleepQuality_of (js "fair") = num 2
  /\ sleepQuality_of (js "good") = num 3
  /\ sleepQuality_of (js "excellent") = num 4.
Proof. vm_compute. repeat split; reflexivity. Qed.

(** A token that is no key of the table and no property name of
    [Object.prototype] gives [0]. *)
Lemma stressLevel_of_other token :
  token ≠ js "low" -> token ≠ js "moderate" -> token ≠ js "high" ->
  Object_prototype !! token = None ->
  stressLevel_of token = num 0.
Proof.
  intros H1 H2 H3 Hp. unfold stressLevel_of, get, stressLevel_table.
  rewrite !lookup_insert_ne, lookup_empty, Hp by congruence. reflexivity.
Qed.

Lemma sleepQuality_of_other token :
  token ≠ js "poor" -> token ≠ js "fair" -> token ≠ js "good" ->
  token ≠ js "excellent" ->
  Object_prototype !! token = None ->
  sleepQuality_of token = num 0.
Proof.
  intros H1 H2 H3 H4 Hp. unfold sleepQuality_of, get, sleepQuality_table.
  rewrite !lookup_insert_ne, lookup_empty, Hp by congruence. reflexivity.
Qed.

Example stressLevel_of_unknown :
  stressLevel_of (js "unknown") = num 0 /\ sleepQuality_of (js "unknown") = num 0
  /\ stressLevel_of [] = num 0 /\ stressLevel_of (js "LOW") = num 0.
Proof. vm_compute. repeat split; reflexivity. Qed.

(** Claim C4, evaluated on the code. Both mappings return a value for
    every token and send the keys of their table to the numbers of the
    table, but a token that names a property inherited from
    [Object.prototype] is found by the lookup, is truthy, and is returned
    in place of the default [0]. *)
Theorem inherited_names_are_not_defaulted :
  stressLevel_of (js "constructor") = VBuiltin "Object"
  /\ sleepQuality_of (js "constructor") = VBuiltin "Object"
  /\ stressLevel_of (js "toString") = VBuiltin "Object.prototype.toString"
  /\ sleepQuality_of (js "valueOf") = VBuiltin "Object.prototype.valueOf"
  /\ stressLevel_of (js "constructor") ≠ num 0
  /\ sleepQuality_of (js "constructor") ≠ num 0.
Proof. vm_compute. repeat split; try reflexivity; discriminate. Qed.

(** Claim C3, evaluated on the code. For every input with the five
    attributes of the end-to-end scenario the record has stressLevel 2,
    sleepQuality 3, confidenceLevel 72 and obstacles [time management] as
    the claim says, and timeCommitment 0 where the claim says 3. *)
Theorem scenario_record reg fit psy ana :
  stressLevel (lifestyle fit) = js "moderate" ->
  sleepQuality (lifestyle fit) = js "good" ->
  timeCommitment (lifestyle fit) = js "3-4_hours" ->
  barriers (readinessAssessment psy) = [js "time management"] ->
  Analysis.readinessScore (Analysis.motivationAnalysis ana) = of_Z 72 ->
  let r := completeUserData reg fit psy ana in
  InsertUser.stressLevel r = num 2
  /\ InsertUser.sleepQuality r = num 3
  /\ InsertUser.timeCommitment r = num 0
  /\ InsertUser.confidenceLevel r = of_Z 72
  /\ InsertUser.obstacles r = js "time management".
Proof.
  intros H1 H2 H3 H4 H5. simpl. rewrite H1, H2, H3, H4, H5.
  vm_compute. repeat split; reflexivity.
Qed.

Lemma scenario_record_witness :
  let r := Scenario.record in
  InsertUser.stressLevel r = num 2
  /\ InsertUser.sleepQuality r = num 3
  /\ InsertUser.timeCommitment r = num 0
  /\ InsertUser.confidenceLevel r = of_Z 72
  /\ InsertUser.obstacles r = js "time management".
Proof.
  apply (scenario_record Scenario.credential Scenario.fitnessInput
           Scenario.psychologicalInput Scenario.analysis); reflexivity.
Defined.

(** ** The array encoding and its decoding *)

Section RoundTrip.
Import JSON.

Lemma hex_value_hex_digit d : (d < 16)%N -> hex_value (hex_digit d) = Some d.
Proof.
  intros H.
  assert (Hd : In d [0;1;2;3;4;5;6;7;8;9;10;11;12;13;14;15]%N) by (simpl; lia).
  simpl in Hd. intuition subst; reflexivity.
Qed.

(** The four hex digits of an escape decode to the escaped code unit. *)
Lemma hex4_UnicodeEscape c :
  (c < 65536)%N ->
  exists h1 h2 h3 h4,
    UnicodeEscape c = [92; 117; h1; h2; h3; h4]%N /\ hex4 h1 h2 h3 h4 = Some c.
Proof.
  intros Hc. unfold UnicodeEscape. do 4 eexists. split; [reflexivity|].
  unfold hex4.
  rewrite !hex_value_hex_digit by (apply N.mod_upper_bound; lia).
  simpl. f_equal.
  pose proof (N.div_mod c 16 ltac:(lia)).
  pose proof (N.div_mod (c / 16) 16 ltac:(lia)).
  pose proof (N.div_mod (c / 256) 16 ltac:(lia)).
  assert (c / 256 = c / 16 / 16)%N by (rewrite N.Div0.div_div; reflexivity).
  assert (c / 4096 = c / 256 / 16)%N by (rewrite N.Div0.div_div; reflexivity).
  assert (c / 4096 < 16)%N by (apply N.Div0.div_lt_upper_bound; lia).
  rewrite (N.mod_small (c / 4096) 16) by lia.
  lia.
Qed.

Lemma run_InString_cons done cur c t :
  (c =? 34)%N = false -> (c =? 92)%N = false -> (c <? 32)%N = false ->
  run (InString done cur) (c :: t) = run (InString done (c :: cur)) t.
Proof. intros H1 H2 H3. simpl. rewrite H1, H2, H3. reflexivity. Qed.

Lemma run_UnicodeEscape done cur c t :
  (c < 65536)%N ->
  run (InString done cur) (UnicodeEscape c ++ t) = run (InString done (c :: cur)) t.
Proof.
  intros Hc. destruct (hex4_UnicodeEscape c Hc) as (h1 & h2 & h3 & h4 & -> & Hh).
  simpl. rewrite Hh. reflexivity.
Qed.

(** The parser reads the quoted form of one code unit as that code unit. *)
Lemma run_quote_unit done cur c t :
  run (InString done cur) (quote_unit c ++ t) = run (InString done (c :: cur)) t.
Proof.
  unfold quote_unit.
  destruct (N.eqb_spec c 8) as [->|]; [reflexivity|].
  destruct (N.eqb_spec c 9) as [->|]; [reflexivity|].
  destruct (N.eqb_spec c 10) as [->|]; [reflexivity|].
  destruct (N.eqb_spec c 12) as [->|]; [reflexivity|].
  destruct (N.eqb_spec c 13) as [->|]; [reflexivity|].
  destruct (N.eqb_spec c 34) as [->|]; [reflexivity|].
  destruct (N.eqb_spec c 92) as [->|]; [reflexivity|].
  destruct ((c <? 32)%N || is_leading_surrogate c || is_trailing_surrogate c) eqn:E.
  - apply run_UnicodeEscape.
    unfold is_leading_surrogate, is_trailing_surrogate in E. lia.
  - apply run_InString_cons; lia.
Qed.

Lemma run_surrogate_pair done cur c d t :
  is_leading_surrogate c = true -> is_trailing_surrogate d = true ->
  run (InString done cur) (c :: d :: t) = run (InString done (d :: c :: cur)) t.
Proof.
  unfold is_leading_surrogate, is_trailing_surrogate. intros Hc Hd.
  rewrite !run_InString_cons by lia. reflexivity.
Qed.

(** By induction on the length of the string, a surrogate pair taking two
    code units at once. *)
Lemma run_quote_units s : forall done cur t,
  run (InString done cur) (quote_units s ++ t) = run (InString done (rev s ++ cur)) t.
Proof.
  induction s as [s IH] using (induction_ltof1 _ (@length code_unit)).
  unfold ltof in IH. intros done cur t.
  destruct s as [|c rest]; [reflexivity|].
  cbn [quote_units].
  destruct (is_leading_surrogate c) eqn:Hc.
  - destruct rest as [|d rest'].
    + rewrite run_quote_unit. reflexivity.
    + destruct (is_trailing_surrogate d) eqn:Hd.
      * cbn [app]. rewrite run_surrogate_pair by assumption.
        rewrite IH by (simpl; lia). simpl. rewrite <- !app_assoc. reflexivity.
      * rewrite <- app_assoc, run_quote_unit, IH by (simpl; lia).
        simpl. rewrite <- !app_assoc. reflexivity.
  - rewrite <- app_assoc, run_quote_unit, IH by (simpl; lia).
    simpl. rewrite <- !app_assoc. reflexivity.
Qed.

Lemma run_closing_quote s done t :
  run (InString done []) (quote_units s ++ 34%N :: t) = run (AfterValue (s :: done)) t.
Proof.
  rewrite run_quote_units. simpl. rewrite app_nil_r, rev_involutive.
  reflexivity.
Qed.

Lemma join_cons (sep : jsstring) p ps :
  join sep (p :: ps) = p ++ concat (map (fun q => sep ++ q) ps).
Proof.
  revert p. induction ps as [|q ps IH]; intros p.
  - simpl. rewrite app_nil_r. reflexivity.
  - change (join sep (p :: q :: ps)) with (p ++ sep ++ join sep (q :: ps)).
    rewrite IH. simpl. rewrite <- app_assoc. reflexivity.
Qed.

(** The elements after the first, each behind its comma, up to the
    closing bracket. *)
Lemma run_elements l : forall done t,
  run (AfterValue done)
      (concat (map (fun q => 44%N :: q) (map stringify (map JString l))) ++ 93%N :: t)
  = run (End (rev l ++ done)) t.
Proof.
  induction l as [|s l IH]; intros done t.
  - reflexivity.
  - cbn [map concat stringify]. unfold QuoteJSONString.
    rewrite <- !app_assoc. cbn [app].
    change (run (AfterValue done) (44%N :: 34%N :: ?r))
      with (run (InString done []) r).
    rewrite <- !app_assoc. cbn [app].
    rewrite run_closing_quote, IH. simpl. rewrite <- app_assoc. reflexivity.
Qed.

(** [JSON.parse(JSON.stringify(a))] is [a] for every array of strings. *)
Lemma parse_stringify_strings l :
  parse_strings (stringify_strings l) = Some l.
Proof.
  unfold parse_strings, stringify_strings. cbn [stringify].
  destruct l as [|s l].
  - reflexivity.
  - cbn [map]. rewrite join_cons. cbn [stringify]. unfold QuoteJSONString.
    cbn [app].
    change (run Start (91%N :: 34%N :: ?r)) with (run (InString [] []) r).
    rewrite <- !app_assoc. cbn [app].
    rewrite run_closing_quote.
    transitivity (run (End (rev l ++ [s])) []); [exact (run_elements l [s] [])|].
    simpl. rewrite rev_app_distr, rev_involutive. reflexivity.
Qed.

End RoundTrip.

Example stringify_example :
  JSON.stringify_strings [js "Strength Training"; js "a\c"] =
  js "[" ++ dq ++ js "Strength Training" ++ dq ++ js "," ++ dq ++ js "a\\c" ++ dq ++ js "]".
Proof. vm_compute. reflexivity. Qed.

Example stringify_surrogates :
  JSON.stringify_strings [[10; 55357; 56842; 55357; 7; 34]%N] =
  js "[" ++ dq ++ js "\n" ++ [55357; 56842]%N ++ js "\ud83d\u0007\" ++ dq ++ dq ++ js "]".
Proof. vm_compute. reflexivity. Qed.

Example parse_example :
  JSON.parse_strings
    (js " [ " ++ dq ++ js "a\/\u00E9" ++ dq ++ js " , " ++ dq ++ dq ++ js "] ")
  = Some [[97; 47; 233]%N; []].
Proof. vm_compute. reflexivity. Qed.

Example parse_rejects :
  JSON.parse_strings (js "Yoga, HIIT") = None
  /\ JSON.parse_strings (js "[" ++ dq ++ js "Yoga" ++ dq ++ js ",]") = None
  /\ JSON.parse_strings (js "[" ++ dq ++ js "Yoga]") = None.
Proof. vm_compute. repeat split; reflexivity. Qed.

Example stringify_object :
  JSON.stringify (PersonalVision_json {| oneYearGoal := js "run"; visionSatisfaction := 5 |}) =
  js "{" ++ dq ++ js "oneYearGoal" ++ dq ++ js ":" ++ dq ++ js "run" ++ dq ++ js ","
     ++ dq ++ js "visionSatisfaction" ++ dq ++ js ":5}".
Proof. vm_compute. reflexivity. Qed.

(** Two lists that differ only in where an entry ends are encoded apart,
    which a join with commas does not do. *)
Example distinct_entries :
  JSON.stringify_strings [js "a,b"] ≠ JSON.stringify_strings [js "a"; js "b"]
  /\ join (js ",") [js "a,b"] = join (js ",") [js "a"; js "b"].
Proof. split; [vm_compute; discriminate | reflexivity]. Qed.

(** Claim C6. The record's [workoutPreferences] is the JSON array
    encoding of the list of workout preferences, and [motivationFactors]
    the same encoding of the underlying motivations of the analysis;
    decoding either string gives back the list it was made from, entry by
    entry and in order. This holds for every list of strings, the
    non-empty ones among them. *)
Theorem preferences_round_trip reg fit psy ana :
  JSON.parse_strings (InsertUser.workoutPreferences (completeUserData reg fit psy ana))
    = Some (workoutPreferences (fitnessProfile fit))
  /\ JSON.parse_strings (InsertUser.motivationFactors (completeUserData reg fit psy ana))
    = Some (Analysis.underlyingMotivations (Analysis.motivationAnalysis ana)).
Proof. split; apply parse_stringify_strings. Qed.

(** ** The availability gate *)

Lemma handleInitialRegister_taken server data st :
  remote_checkUsername server (username data) = Fulfilled false ->
  handleInitialRegister server data st =
    (Fulfilled tt, st,
     [Request (CheckUsername (username data));
      Settled (CheckUsername (username data)) true;
      Toast (js "Registration Error") (js "Username already exists") true]).
Proof. intros H. run_handler. rewrite H. destruct st; reflexivity. Qed.

Lemma handleInitialRegister_unreachable server data st e :
  remote_checkUsername server (username data) = Rejected e ->
  handleInitialRegister server data st =
    (Fulfilled tt, st,
     [Request (CheckUsername (username data));
      Settled (CheckUsername (username data)) false;
      service_toast e;
      Toast (js "Error") (js "Failed to check username availability") true]).
Proof. intros H. run_handler. rewrite H. destruct st, e; reflexivity. Qed.

Lemma handleInitialRegister_available server data st :
  remote_checkUsername server (username data) = Fulfilled true ->
  handleInitialRegister server data st =
    (Fulfilled tt, credential_stored data st,
     [Request (CheckUsername (username data));
      Settled (CheckUsername (username data)) true]).
Proof. intros H. run_handler. rewrite H. destruct st; reflexivity. Qed.

(** Claim C5. In the state before the pipeline (the step hook at
    [fitness]), when the gate answers that the name is not available the
    handler shows the toast [Username already exists] and leaves every
    hook as it was; when it answers that the name is available the handler
    stores the credential, shows no toast, and the page renders the
    fitness assessment. *)
Theorem availability_gate server data st available :
  assessmentStep st = fitness ->
  remote_checkUsername server (username data) = Fulfilled available ->
  handleInitialRegister server data st =
    (if available
     then (Fulfilled tt, credential_stored data st,
           [Request (CheckUsername (username data));
            Settled (CheckUsername (username data)) true])
     else (Fulfilled tt, st,
           [Request (CheckUsername (username data));
            Settled (CheckUsername (username data)) true;
            Toast (js "Registration Error") (js "Username already exists") true]))
  /\ initialRegData (credential_stored data st) = Some data
  /\ render (credential_stored data st) = FitnessAssessmentCard.
Proof.
  intros Hstep H. split; [|split].
  - destruct available.
    + apply handleInitialRegister_available, H.
    + apply handleInitialRegister_taken, H.
  - reflexivity.
  - unfold render. simpl. rewrite Hstep. reflexivity.
Qed.

Lemma availability_gate_witness :
  handleInitialRegister Scenario.server_ok Scenario.credential initial_state =
    (Fulfilled tt, credential_stored Scenario.credential initial_state,
     [Request (CheckUsername (js "alex")); Settled (CheckUsername (js "alex")) true])
  /\ initialRegData (credential_stored Scenario.credential initial_state)
     = Some Scenario.credential
  /\ render (credential_stored Scenario.credential initial_state) = FitnessAssessmentCard.
Proof.
  apply (availability_gate Scenario.server_ok Scenario.credential initial_state true);
    reflexivity.
Defined.

(** Claim C8. A response with [available = false] gives the toast
    [Username already exists]; a call that throws gives, after the toast of
    the API service, the toast [Failed to check username availability],
    which is another one; in both cases every hook keeps its value, so
    nothing is collected and the page stays before the pipeline. *)
Theorem taken_versus_unreachable server data st :
  (remote_checkUsername server (username data) = Fulfilled false ->
   handleInitialRegister server data st =
     (Fulfilled tt, st,
      [Request (CheckUsername (username data));
       Settled (CheckUsername (username data)) true;
       Toast (js "Registration Error") (js "Username already exists") true]))
  /\ (forall e,
       remote_checkUsername server (username data) = Rejected e ->
       handleInitialRegister server data st =
         (Fulfilled tt, st,
          [Request (CheckUsername (username data));
           Settled (CheckUsername (username data)) false;
           service_toast e;
           Toast (js "Error") (js "Failed to check username availability") true]))
  /\ Toast (js "Registration Error") (js "Username already exists") true
     ≠ Toast (js "Error") (js "Failed to check username availability") true.
Proof.
  split; [|split].
  - apply handleInitialRegister_taken.
  - intros e. apply handleInitialRegister_unreachable.
  - discriminate.
Qed.

Lemma taken_versus_unreachable_witness :
  handleInitialRegister Scenario.server_name_taken Scenario.credential initial_state =
    (Fulfilled tt, initial_state,
     [Request (CheckUsername (js "alex"));
      Settled (CheckUsername (js "alex")) true;
      Toast (js "Registration Error") (js "Username already exists") true])
  /\ handleInitialRegister Scenario.server_unreachable Scenario.credential initial_state =
    (Fulfilled tt, initial_state,
     [Request (CheckUsername (js "alex"));
      Settled (CheckUsername (js "alex")) false;
      service_toast FailedToFetch;
      Toast (js "Error") (js "Failed to check username availability") true]).
Proof.
  split.
  - apply (proj1 (taken_versus_unreachable
                    Scenario.server_name_taken Scenario.credential initial_state)).
    reflexivity.
  - apply (proj1 (proj2 (taken_versus_unreachable
                    Scenario.server_unreachable Scenario.credential initial_state))).
    reflexivity.
Defined.

(** ** The completion handler *)

Lemma guard server psy st :
  initialRegData st = None \/ fitnessData st = None ->
  handlePsychologicalComplete server psy st = (Fulfilled tt, st, []).
Proof.
  intros H. run_handler.
  destruct H as [H|H]; rewrite H; [|destruct (initialRegData st)]; reflexivity.
Qed.

(** Claim C9. When the stored credential or the stored fitness input is
    absent the completion handler returns at once: no remote call, no
    toast, and every hook as it was. Hence a run of the handler that has
    any effect, a remote call among them, starts from a state that holds
    both values. *)
Theorem guard_without_credential_or_fitness server psy st :
  (initialRegData st = None \/ fitnessData st = None ->
   handlePsychologicalComplete server psy st = (Fulfilled tt, st, []))
  /\ (trace_of (handlePsychologicalComplete server psy st) ≠ [] ->
      is_Some (initialRegData st) /\ is_Some (fitnessData st)).
Proof.
  split; [apply guard|].
  intros Htr.
  destruct (initialRegData st) as [reg|] eqn:H1;
    [destruct (fitnessData st) as [fit|] eqn:H2|].
  - split; eauto.
  - exfalso. apply Htr. rewrite guard by (right; exact H2). reflexivity.
  - exfalso. apply Htr. rewrite guard by (left; exact H1). reflexivity.
Qed.

Lemma guard_without_credential_or_fitness_witness :
  handlePsychologicalComplete Scenario.server_ok Scenario.psychologicalInput initial_state
    = (Fulfilled tt, initial_state, [])
  /\ is_Some (initialRegData forms_filled) /\ is_Some (fitnessData forms_filled).
Proof.
  split.
  - apply (proj1 (guard_without_credential_or_fitness
                    Scenario.server_ok Scenario.psychologicalInput initial_state)).
    left. reflexivity.
  - apply (proj2 (guard_without_credential_or_fitness
                    Scenario.server_ok Scenario.psychologicalInput forms_filled)).
    vm_compute. discriminate.
Defined.

(** The four ways in which the handler runs past its guard. *)

Lemma analysis_failure server psy st reg fit e :
  initialRegData st = Some reg -> fitnessData st = Some fit ->
  remote_analyzeAssessment server (analyze_request fit psy) = Rejected e ->
  handlePsychologicalComplete server psy st =
    (Fulfilled tt, rolled_back st,
     [Request (AnalyzeAssessment (analyze_request fit psy));
      Settled (AnalyzeAssessment (analyze_request fit psy)) false;
      service_toast e; ConsoleError e; catch_toast e]).
Proof.
  intros H1 H2 H3. run_handler. rewrite H1, H2. cbn. rewrite H3.
  destruct e; reflexivity.
Qed.

Lemma synthesis_failure server psy st reg fit ana e :
  initialRegData st = Some reg -> fitnessData st = Some fit ->
  remote_analyzeAssessment server (analyze_request fit psy) = Fulfilled ana ->
  remote_generateWorkout server (workout_request fit psy) = Rejected e ->
  handlePsychologicalComplete server psy st =
    (Fulfilled tt, rolled_back st,
     [Request (AnalyzeAssessment (analyze_request fit psy));
      Settled (AnalyzeAssessment (analyze_request fit psy)) true;
      Request (GenerateWorkout (workout_request fit psy));
      Settled (GenerateWorkout (workout_request fit psy)) false;
      service_toast e; ConsoleError e; catch_toast e]).
Proof.
  intros H1 H2 H3 H4. run_handler. rewrite H1, H2. cbn. rewrite H3. cbn.
  rewrite H4. destruct e; reflexivity.
Qed.

Lemma registration_failure server psy st reg fit ana plan e :
  initialRegData st = Some reg -> fitnessData st = Some fit ->
  remote_analyzeAssessment server (analyze_request fit psy) = Fulfilled ana ->
  remote_generateWorkout server (workout_request fit psy) = Fulfilled plan ->
  remote_register server (completeUserData reg fit psy ana) = Rejected e ->
  handlePsychologicalComplete server psy st =
    (Fulfilled tt,
     {| showAssessment := false; assessmentStep := fitness; initialRegData := None;
        fitnessData := None; results := Some (comprehensive_results ana plan);
        isAnalyzing := false |},
     [Request (AnalyzeAssessment (analyze_request fit psy));
      Settled (AnalyzeAssessment (analyze_request fit psy)) true;
      Request (GenerateWorkout (workout_request fit psy));
      Settled (GenerateWorkout (workout_request fit psy)) true;
      Request (Register (completeUserData reg fit psy ana));
      Settled (Register (completeUserData reg fit psy ana)) false;
      service_toast e; ConsoleError e; catch_toast e]).
Proof.
  intros H1 H2 H3 H4 H5. run_handler. rewrite H1, H2. cbn. rewrite H3. cbn.
  rewrite H4. cbn. rewrite H5. destruct e; reflexivity.
Qed.

Lemma registration_success server psy st reg fit ana plan u :
  initialRegData st = Some reg -> fitnessData st = Some fit ->
  remote_analyzeAssessment server (analyze_request fit psy) = Fulfilled ana ->
  remote_generateWorkout server (workout_request fit psy) = Fulfilled plan ->
  remote_register server (completeUserData reg fit psy ana) = Fulfilled u ->
  handlePsychologicalComplete server psy st =
    (Fulfilled tt,
     {| showAssessment := showAssessment st; assessmentStep := results_step;
        initialRegData := Some reg; fitnessData := Some fit;
        results := Some (comprehensive_results ana plan);
        isAnalyzing := false |},
     [Request (AnalyzeAssessment (analyze_request fit psy));
      Settled (AnalyzeAssessment (analyze_request fit psy)) true;
      Request (GenerateWorkout (workout_request fit psy));
      Settled (GenerateWorkout (workout_request fit psy)) true;
      Request (Register (completeUserData reg fit psy ana));
      Settled (Register (completeUserData reg fit psy ana)) true;
      SetUser u; Navigate (js "/dashboard");
      Toast success_title
        (js "Your account has been created. Welcome to your fitness journey!") false]).
Proof.
  intros H1 H2 H3 H4 H5. run_handler. rewrite H1, H2. cbn. rewrite H3. cbn.
  rewrite H4. cbn. rewrite H5. cbn. rewrite ?H1, ?H2. reflexivity.
Qed.

(** The handler never throws: its [catch] block handles every rejection. *)
Lemma handlePsychologicalComplete_returns server psy st :
  (handlePsychologicalComplete server psy st).1.1 = Fulfilled tt.
Proof.
  destruct (initialRegData st) as [reg|] eqn:H1;
    [destruct (fitnessData st) as [fit|] eqn:H2|].
  2,3: rewrite guard by auto; reflexivity.
  destruct (remote_analyzeAssessment server (analyze_request fit psy)) as [ana|e] eqn:H3;
    [|rewrite (analysis_failure _ _ _ _ _ _ H1 H2 H3); reflexivity].
  destruct (remote_generateWorkout server (workout_request fit psy)) as [plan|e] eqn:H4;
    [|rewrite (synthesis_failure _ _ _ _ _ _ _ H1 H2 H3 H4); reflexivity].
  destruct (remote_register server (completeUserData reg fit psy ana)) as [u|e] eqn:H5;
    [|rewrite (registration_failure _ _ _ _ _ _ _ _ H1 H2 H3 H4 H5); reflexivity].
  rewrite (registration_success _ _ _ _ _ _ _ _ H1 H2 H3 H4 H5). reflexivity.
Qed.

(** *** Roll-back *)

(** A failed analysis or synthesis in a first run brings back the state
    of the first render. *)
Lemma rolled_back_initial st : results st = None -> rolled_back st = initial_state.
Proof. unfold rolled_back, initial_state. intros ->. reflexivity. Qed.

Lemma analysis_failure_initial server psy st reg fit e :
  initialRegData st = Some reg -> fitnessData st = Some fit -> results st = None ->
  remote_analyzeAssessment server (analyze_request fit psy) = Rejected e ->
  state_of (handlePsychologicalComplete server psy st) = initial_state.
Proof.
  intros H1 H2 Hr H3. rewrite (analysis_failure _ _ _ _ _ _ H1 H2 H3).
  apply rolled_back_initial, Hr.
Qed.

Lemma synthesis_failure_initial server psy st reg fit ana e :
  initialRegData st = Some reg -> fitnessData st = Some fit -> results st = None ->
  remote_analyzeAssessment server (analyze_request fit psy) = Fulfilled ana ->
  remote_generateWorkout server (workout_request fit psy) = Rejected e ->
  state_of (handlePsychologicalComplete server psy st) = initial_state.
Proof.
  intros H1 H2 Hr H3 H4. rewrite (synthesis_failure _ _ _ _ _ _ _ H1 H2 H3 H4).
  apply rolled_back_initial, Hr.
Qed.

(** Whichever of the three calls is rejected, the credential and the
    fitness input are dropped, the step is back at [fitness] and the page
    shows the two forms of the first render. *)
Lemma failure_resets_hooks server psy st reg fit c :
  initialRegData st = Some reg -> fitnessData st = Some fit ->
  Settled c false ∈ trace_of (handlePsychologicalComplete server psy st) ->
  let st' := state_of (handlePsychologicalComplete server psy st) in
  showAssessment st' = false /\ assessmentStep st' = fitness
  /\ initialRegData st' = None /\ fitnessData st' = None
  /\ isAnalyzing st' = false /\ render st' = AuthForms.
Proof.
  intros H1 H2.
  destruct (remote_analyzeAssessment server (analyze_request fit psy)) as [ana|e] eqn:H3;
    [|rewrite (analysis_failure _ _ _ _ _ _ H1 H2 H3); cbn; tauto].
  destruct (remote_generateWorkout server (workout_request fit psy)) as [plan|e] eqn:H4;
    [|rewrite (synthesis_failure _ _ _ _ _ _ _ H1 H2 H3 H4); cbn; tauto].
  destruct (remote_register server (completeUserData reg fit psy ana)) as [u|e] eqn:H5;
    [|rewrite (registration_failure _ _ _ _ _ _ _ _ H1 H2 H3 H4 H5); cbn; tauto].
  rewrite (registration_success _ _ _ _ _ _ _ _ H1 H2 H3 H4 H5). cbn.
  rewrite !elem_of_cons, elem_of_nil. intros H. exfalso.
  repeat (destruct H as [H|H]; [discriminate H|]). exact H.
Qed.

Example pipeline_analysis_down :
  state_of (Scenario.pipeline Scenario.server_analysis_down initial_state) = initial_state.
Proof. reflexivity. Qed.

Example pipeline_synthesis_down :
  state_of (Scenario.pipeline Scenario.server_synthesis_down initial_state) = initial_state.
Proof. reflexivity. Qed.

Example pipeline_register_refused :
  state_of (Scenario.pipeline Scenario.server_register_refused initial_state) =
    {| showAssessment := false; assessmentStep := fitness; initialRegData := None;
       fitnessData := None;
       results := Some (comprehensive_results Scenario.analysis Scenario.plan);
       isAnalyzing := false |}.
Proof. reflexivity. Qed.

(** Claim C2, evaluated on the code. When the analysis and the synthesis
    succeed and the registration is refused, the [catch] and [finally]
    blocks reset the hooks [showAssessment], [initialRegData],
    [fitnessData], [assessmentStep] and [isAnalyzing], and the page renders
    the two forms of the first render; the hook [results], written before
    the registration, keeps the analysis and the workout plan, so the
    state is not the state of the first render. *)
Theorem registration_failure_keeps_results server psy st reg fit ana plan e :
  initialRegData st = Some reg -> fitnessData st = Some fit ->
  remote_analyzeAssessment server (analyze_request fit psy) = Fulfilled ana ->
  remote_generateWorkout server (workout_request fit psy) = Fulfilled plan ->
  remote_register server (completeUserData reg fit psy ana) = Rejected e ->
  let st' := state_of (handlePsychologicalComplete server psy st) in
  results st' = Some (comprehensive_results ana plan)
  /\ st' ≠ initial_state
  /\ initialRegData st' = None /\ fitnessData st' = None
  /\ render st' = AuthForms.
Proof.
  intros H1 H2 H3 H4 H5.
  rewrite (registration_failure _ _ _ _ _ _ _ _ H1 H2 H3 H4 H5).
  cbn. repeat split. discriminate.
Qed.

Lemma registration_failure_keeps_results_witness :
  let st' := state_of (handlePsychologicalComplete Scenario.server_register_refused
                         Scenario.psychologicalInput forms_filled) in
  results st' = Some (comprehensive_results Scenario.analysis Scenario.plan)
  /\ st' ≠ initial_state
  /\ initialRegData st' = None /\ fitnessData st' = None
  /\ render st' = AuthForms.
Proof.
  apply (registration_failure_keeps_results Scenario.server_register_refused
           Scenario.psychologicalInput forms_filled Scenario.credential
           Scenario.fitnessInput Scenario.analysis Scenario.plan Scenario.taken);
    reflexivity.
Defined.

(** *** The order of the remote calls *)

Lemma service_toast_is_toast e : exists a b c, service_toast e = Toast a b c.
Proof. destruct e; simpl; eauto. Qed.

(** Claim C7. In every run of the completion handler, whatever the
    server answers, at most one remote call is in flight at any point;
    the synthesis is requested only after the analysis has settled with
    success, and the registration only after the synthesis has, with no
    call in flight at that point. *)
Theorem remote_calls_sequential server psy st :
  strictly_sequential (trace_of (handlePsychologicalComplete server psy st)).
Proof.
  unfold trace_of.
  destruct (initialRegData st) as [reg|] eqn:H1;
    [destruct (fitnessData st) as [fit|] eqn:H2|].
  2,3: rewrite guard by auto; sequential_trace.
  destruct (remote_analyzeAssessment server (analyze_request fit psy)) as [ana|e] eqn:H3.
  2: { rewrite (analysis_failure _ _ _ _ _ _ H1 H2 H3).
       destruct (service_toast_is_toast e) as (x & y & z & ->). unfold catch_toast.
       sequential_trace. }
  destruct (remote_generateWorkout server (workout_request fit psy)) as [plan|e] eqn:H4.
  2: { rewrite (synthesis_failure _ _ _ _ _ _ _ H1 H2 H3 H4).
       destruct (service_toast_is_toast e) as (x & y & z & ->). unfold catch_toast.
       sequential_trace. }
  destruct (remote_register server (completeUserData reg fit psy ana)) as [u|e] eqn:H5.
  2: { rewrite (registration_failure _ _ _ _ _ _ _ _ H1 H2 H3 H4 H5).
       destruct (service_toast_is_toast e) as (x & y & z & ->). unfold catch_toast.
       sequential_trace. }
  rewrite (registration_success _ _ _ _ _ _ _ _ H1 H2 H3 H4 H5).
  sequential_trace.
Qed.

Example pipeline_trace_calls :
  List.filter (fun ev => match ev with Request _ | Settled _ _ => true | _ => false end)
    (trace_of (Scenario.pipeline Scenario.server_ok initial_state))
  = [Request (CheckUsername (js "alex"));
     Settled (CheckUsername (js "alex")) true;
     Request (AnalyzeAssessment
                (analyze_request Scenario.fitnessInput Scenario.psychologicalInput));
     Settled (AnalyzeAssessment
                (analyze_request Scenario.fitnessInput Scenario.psychologicalInput)) true;
     Request (GenerateWorkout
                (workout_request Scenario.fitnessInput Scenario.psychologicalInput));
     Settled (GenerateWorkout
                (workout_request Scenario.fitnessInput Scenario.psychologicalInput)) true;
     Request (Register Scenario.record);
     Settled (Register Scenario.record) true].
Proof. reflexivity. Qed.

(** * More properties of the code *)

(** ** The API service and the two handlers of the page *)

(** Extra X1. [ApiService.request] hands its caller exactly what the
    server answered, the thrown value of a rejection included, and leaves
    the hooks of the page alone; it shows one destructive toast when the
    call is rejected and none when it is fulfilled. *)
Theorem request_transparent {A} (e : endpoint) (answer : outcome A) st :
  request e answer st =
    (answer, st,
     Request e :: Settled e (fulfilled answer)
       :: match answer with
          | Fulfilled _ => []
          | Rejected err => [service_toast err]
          end).
Proof.
  unfold request, try_catch, try_catch_finally, mbind, M_bind, bind.
  destruct answer as [a|[]]; destruct st; reflexivity.
Qed.

Lemma handleInitialRegister_returns server data st :
  (handleInitialRegister server data st).1.1 = Fulfilled tt.
Proof.
  destruct (remote_checkUsername server (username data)) as [[]|e] eqn:H.
  - rewrite (handleInitialRegister_available _ _ _ H). reflexivity.
  - rewrite (handleInitialRegister_taken _ _ _ H). reflexivity.
  - rewrite (handleInitialRegister_unreachable _ _ _ _ H). reflexivity.
Qed.

Lemma isAnalyzing_reset server psy st :
  is_Some (initialRegData st) -> is_Some (fitnessData st) ->
  isAnalyzing (state_of (handlePsychologicalComplete server psy st)) = false.
Proof.
  intros [reg H1] [fit H2].
  destruct (remote_analyzeAssessment server (analyze_request fit psy)) as [ana|e] eqn:H3;
    [|rewrite (analysis_failure _ _ _ _ _ _ H1 H2 H3); reflexivity].
  destruct (remote_generateWorkout server (workout_request fit psy)) as [plan|e] eqn:H4;
    [|rewrite (synthesis_failure _ _ _ _ _ _ _ H1 H2 H3 H4); reflexivity].
  destruct (remote_register server (completeUserData reg fit psy ana)) as [u|e] eqn:H5;
    [|rewrite (registration_failure _ _ _ _ _ _ _ _ H1 H2 H3 H4 H5); reflexivity].
  rewrite (registration_success _ _ _ _ _ _ _ _ H1 H2 H3 H4 H5). reflexivity.
Qed.

(** Extra X2. Neither [handleInitialRegister] nor
    [handlePsychologicalComplete] ever rejects, whatever the server
    answers: every thrown value is caught. A run of the completion handler
    either stops at its guard, changing nothing, or leaves [isAnalyzing]
    false, on success and on every failure. *)
Theorem handlers_never_throw server data psy st :
  (handleInitialRegister server data st).1.1 = Fulfilled tt
  /\ (handlePsychologicalComplete server psy st).1.1 = Fulfilled tt
  /\ (handlePsychologicalComplete server psy st = (Fulfilled tt, st, [])
      \/ isAnalyzing (state_of (handlePsychologicalComplete server psy st)) = false).
Proof.
  split; [apply handleInitialRegister_returns|].
  split; [apply handlePsychologicalComplete_returns|].
  destruct (initialRegData st) as [reg|] eqn:H1;
    [destruct (fitnessData st) as [fit|] eqn:H2|].
  - right. apply isAnalyzing_reset; eauto.
  - left. apply guard. auto.
  - left. apply guard. auto.
Qed.

Lemma service_toast_destructive e :
  exists a b, service_toast e = Toast a b true.
Proof. destruct e; simpl; eauto. Qed.

(** Extra X3. A run of the completion handler in which a remote call is
    rejected shows the user two toasts, both destructive: the one of the
    API service and then the one of the [catch] block, for the same thrown
    value. *)
Theorem failure_shows_two_toasts server psy st c :
  Settled c false ∈ trace_of (handlePsychologicalComplete server psy st) ->
  exists e,
    toasts (trace_of (handlePsychologicalComplete server psy st))
      = [service_toast e; catch_toast e]
    /\ forallb destructive
         (toasts (trace_of (handlePsychologicalComplete server psy st))) = true.
Proof.
  unfold trace_of.
  destruct (initialRegData st) as [reg|] eqn:H1;
    [destruct (fitnessData st) as [fit|] eqn:H2|].
  2,3: rewrite guard by auto; cbn; intros H; apply elem_of_nil in H; contradiction.
  assert (Hfail : forall e pre,
             let tr := pre ++ [service_toast e; ConsoleError e; catch_toast e] in
             toasts pre = [] ->
             exists e', toasts tr = [service_toast e'; catch_toast e']
                        /\ forallb destructive (toasts tr) = true).
  { intros e pre tr Hpre. exists e. subst tr. unfold toasts in *.
    rewrite List.filter_app, Hpre.
    destruct (service_toast_destructive e) as (a & b & ->). split; reflexivity. }
  destruct (remote_analyzeAssessment server (analyze_request fit psy)) as [ana|e] eqn:H3.
  2: { rewrite (analysis_failure _ _ _ _ _ _ H1 H2 H3). intros _.
       apply (Hfail e [_; _]). reflexivity. }
  destruct (remote_generateWorkout server (workout_request fit psy)) as [plan|e] eqn:H4.
  2: { rewrite (synthesis_failure _ _ _ _ _ _ _ H1 H2 H3 H4). intros _.
       apply (Hfail e [_; _; _; _]). reflexivity. }
  destruct (remote_register server (completeUserData reg fit psy ana)) as [u|e] eqn:H5.
  2: { rewrite (registration_failure _ _ _ _ _ _ _ _ H1 H2 H3 H4 H5). intros _.
       apply (Hfail e [_; _; _; _; _; _]). reflexivity. }
  rewrite (registration_success _ _ _ _ _ _ _ _ H1 H2 H3 H4 H5). cbn.
  rewrite !elem_of_cons, elem_of_nil. intros H. exfalso.
  repeat (destruct H as [H|H]; [discriminate H|]). exact H.
Qed.

Lemma failure_shows_two_toasts_witness :
  exists e,
    toasts (trace_of (handlePsychologicalComplete Scenario.server_register_refused
                        Scenario.psychologicalInput forms_filled))
      = [service_toast e; catch_toast e]
    /\ forallb destructive
         (toasts (trace_of (handlePsychologicalComplete Scenario.server_register_refused
                              Scenario.psychologicalInput forms_filled))) = true.
Proof.
  apply (failure_shows_two_toasts Scenario.server_register_refused
           Scenario.psychologicalInput forms_filled
           (Register Scenario.record)).
  vm_compute. do 5 apply list_elem_of_further. apply list_elem_of_here.
Defined.



(** ** The text areas, the bucket token and the array encoding *)

Lemma split_app_sep sep s t :
  sep ∉ s -> split sep (s ++ sep :: t) = s :: split sep t.
Proof.
  induction s as [|c s IH]; intros Hs; simpl.
  - rewrite N.eqb_refl. reflexivity.
  - apply not_elem_of_cons in Hs as [Hc Hs].
    destruct (N.eqb_spec c sep) as [->|_]; [contradiction|].
    rewrite IH by assumption. reflexivity.
Qed.

Lemma split_without_sep sep s : sep ∉ s -> split sep s = [s].
Proof.
  induction s as [|c s IH]; intros Hs; simpl; [reflexivity|].
  apply not_elem_of_cons in Hs as [Hc Hs].
  destruct (N.eqb_spec c sep) as [->|_]; [contradiction|].
  rewrite IH by assumption. reflexivity.
Qed.

(** [l.join(sep).split(sep)] is [l] when no entry holds the separator. *)
Lemma split_join sep l :
  l ≠ [] -> Forall (fun s => sep ∉ s) l -> split sep (join [sep] l) = l.
Proof.
  induction l as [|s l IH]; intros Hne Hl; [contradiction|].
  apply Forall_cons in Hl as [Hs Hl].
  destruct l as [|s' l].
  - simpl. apply split_without_sep, Hs.
  - change (join [sep] (s :: s' :: l)) with (s ++ sep :: join [sep] (s' :: l)).
    rewrite split_app_sep by assumption. rewrite IH by (assumption || discriminate).
    reflexivity.
Qed.

Lemma filter_all {A} (P : A -> Prop) `{forall x, Decision (P x)} (l : list A) :
  Forall P l -> filter P l = l.
Proof.
  induction 1 as [|x l Hx Hl IH]; [reflexivity|].
  rewrite filter_cons_True by assumption. rewrite IH. reflexivity.
Qed.

Lemma kept_lines_round_trip (lines : list jsstring) :
  Forall (fun line => blank line = false /\ 10%N ∉ line) lines ->
  filter (fun line => trim line ≠ []) (split 10%N (textarea_value lines)) = lines.
Proof.
  intros H. destruct lines as [|s l]; [reflexivity|].
  unfold textarea_value. rewrite split_join.
  - apply filter_all. eapply Forall_impl; [exact H|].
    intros line [Hb _] Ht. apply trim_blank in Ht. congruence.
  - discriminate.
  - eapply Forall_impl; [exact H|]. intros line [_ Hn]. exact Hn.
Qed.

(** Extra X5. A stored list whose entries are non-blank and hold no line
    break survives the text area: shown as [value.join("\n")] and read
    back by the [onChange] handler it is the same list, for the barriers
    and for the support system. *)
Theorem textarea_round_trip (lines : list jsstring) :
  Forall (fun line => blank line = false /\ 10%N ∉ line) lines ->
  barriers_onChange (textarea_value lines) = lines
  /\ supportSystem_onChange (textarea_value lines) = lines.
Proof. intros H. split; apply kept_lines_round_trip, H. Qed.

Lemma textarea_round_trip_witness :
  barriers_onChange (textarea_value [js "Work stress"; js "Self-doubt"])
    = [js "Work stress"; js "Self-doubt"]
  /\ supportSystem_onChange (textarea_value [js "Work stress"; js "Self-doubt"])
    = [js "Work stress"; js "Self-doubt"].
Proof.
  apply (textarea_round_trip [js "Work stress"; js "Self-doubt"]).
  apply Forall_cons. split; [|apply Forall_cons; split; [|apply Forall_nil; exact I]].
  - split; [reflexivity|]. intros Hin%list_elem_of_In. vm_compute in Hin.
    intuition discriminate.
  - split; [reflexivity|]. intros Hin%list_elem_of_In. vm_compute in Hin.
    intuition discriminate.
Defined.

Lemma kept_lines value :
  Forall (fun line => blank line = false /\ 10%N ∉ line)
         (filter (fun line => trim line ≠ []) (split 10%N value)).
Proof.
  apply Forall_forall. intros line [Htrim Hin]%list_elem_of_filter. split.
  - destruct (blank line) eqn:E; [|reflexivity].
    apply trim_blank in E. contradiction.
  - eapply split_no_sep. exact Hin.
Qed.

(** Extra X6. What the text area shows after a change is stable: the
    list stored for a typed text, shown again and read again, is the list
    itself. So the text area shows the non-blank lines of what was typed,
    joined by single line breaks; a blank line or a line break at the end
    is gone at the next render. *)
Theorem textarea_stable (value : jsstring) :
  barriers_onChange (textarea_value (barriers_onChange value)) = barriers_onChange value
  /\ supportSystem_onChange (textarea_value (supportSystem_onChange value))
     = supportSystem_onChange value.
Proof. split; apply kept_lines_round_trip, kept_lines. Qed.

Example textarea_swallows_line_break :
  textarea_value (barriers_onChange (js "Work stress" ++ [10%N])) = js "Work stress".
Proof. vm_compute. reflexivity. Qed.











Section Printable.
Import JSON.

Lemma hex_digit_printable d : printable (hex_digit d).
Proof. unfold printable, hex_digit. destruct (d <? 10)%N eqn:E; lia. Qed.

Lemma quote_unit_printable c : Forall printable (quote_unit c).
Proof.
  unfold quote_unit.
  repeat match goal with
    | |- context [(c =? ?k)%N] => destruct (N.eqb_spec c k) as [->|?];
        [repeat constructor; unfold printable; cbn; lia|]
    end.
  destruct (_ || _ || _) eqn:E.
  - unfold UnicodeEscape. repeat constructor; try apply hex_digit_printable;
      unfold printable; lia.
  - repeat constructor. unfold printable. lia.
Qed.

Lemma quote_units_printable s : Forall printable (quote_units s).
Proof.
  induction s as [s IH] using (induction_ltof1 _ (@length code_unit)).
  unfold ltof in IH. destruct s as [|c rest]; [constructor|].
  cbn [quote_units]. destruct (is_leading_surrogate c) eqn:Hc.
  - destruct rest as [|d rest'].
    + apply quote_unit_printable.
    + destruct (is_trailing_surrogate d) eqn:Hd.
      * unfold is_leading_surrogate in Hc. unfold is_trailing_surrogate in Hd.
        constructor; [unfold printable; lia|]. constructor; [unfold printable; lia|].
        apply IH. simpl. lia.
      * apply Forall_app. split; [apply quote_unit_printable|apply IH; simpl; lia].
  - apply Forall_app. split; [apply quote_unit_printable|apply IH; simpl; lia].
Qed.

Lemma join_printable sep parts :
  Forall printable sep -> Forall (Forall printable) parts ->
  Forall printable (join sep parts).
Proof.
  intros Hsep. induction 1 as [|p ps Hp Hps IH]; [constructor|].
  destruct ps as [|q ps]; [exact Hp|].
  change (join sep (p :: q :: ps)) with (p ++ sep ++ join sep (q :: ps)).
  rewrite !Forall_app. auto.
Qed.

Lemma stringify_strings_printable l : Forall printable (stringify_strings l).
Proof.
  unfold stringify_strings. cbn [stringify]. rewrite !Forall_app. split; [|split].
  - repeat constructor. unfold printable. lia.
  - apply join_printable; [repeat constructor; unfold printable; lia|].
    rewrite map_map. apply Forall_map, Forall_forall. intros s _. cbn [stringify].
    unfold QuoteJSONString. rewrite Forall_app. split.
    + constructor; [unfold printable; lia|apply quote_units_printable].
    + repeat constructor. unfold printable. lia.
  - repeat constructor. unfold printable. lia.
Qed.

End Printable.

(** Extra X8. The two encoded fields of the record never hold a control
    character, whatever the preferences and the motivations hold: a line
    break, a tab or any other code unit below 32 of an entry is written
    as an escape. *)
Theorem encoded_fields_printable reg fit psy ana :
  Forall printable (InsertUser.workoutPreferences (completeUserData reg fit psy ana))
  /\ Forall printable (InsertUser.motivationFactors (completeUserData reg fit psy ana)).
Proof. split; apply stringify_strings_printable. Qed.

(** ** The psychological form *)

Section PsychFormProperties.
Import PsychForm.

Lemma emotion_onClick_elem value emotion x :
  x ∈ emotion_onClick value emotion <->
  (x = emotion /\ emotion ∉ default [] value)
  \/ (x ≠ emotion /\ x ∈ default [] value).
Proof.
  unfold emotion_onClick. cbn zeta. case_bool_decide as Hin.
  - rewrite list_elem_of_filter. destruct (decide (x = emotion)) as [->|Hne]; tauto.
  - rewrite elem_of_app, list_elem_of_singleton.
    destruct (decide (x = emotion)) as [->|Hne]; tauto.
Qed.

(** Extra X9. A click on an emotion button flips that emotion and no
    other: the emotion is in the new selection exactly when it was not in
    the old one, and every other emotion is in the new selection exactly
    when it was in the old one. *)
Theorem emotion_onClick_flips value emotion :
  (forall x, x ∈ emotion_onClick value emotion <->
             (x = emotion /\ emotion ∉ default [] value)
             \/ (x ≠ emotion /\ x ∈ default [] value))
  /\ (emotion ∈ emotion_onClick value emotion <-> emotion ∉ default [] value).
Proof.
  split; [intros x; apply emotion_onClick_elem|].
  rewrite emotion_onClick_elem. tauto.
Qed.

Lemma emotion_onClick_NoDup value emotion :
  NoDup (default [] value) -> NoDup (emotion_onClick value emotion).
Proof.
  intros H. unfold emotion_onClick. cbn zeta. case_bool_decide as Hin.
  - apply NoDup_filter, H.
  - apply NoDup_app. split; [exact H|]. split.
    + intros x Hx ->%list_elem_of_singleton. contradiction.
    + apply NoDup_singleton.
Qed.

Lemma clicks_snoc emotions emotion :
  clicks (emotions ++ [emotion]) = emotion_onClick (Some (clicks emotions)) emotion.
Proof. unfold clicks. rewrite fold_left_app. reflexivity. Qed.

(** Extra X10. After any clicks on the emotion buttons, from the empty
    default, the selection holds no emotion twice, and it holds an emotion
    exactly when that emotion was clicked an odd number of times. *)
Theorem clicks_selection emotions :
  NoDup (clicks emotions)
  /\ forall x, x ∈ clicks emotions <->
               Nat.odd (length (filter (fun e => e = x) emotions)) = true.
Proof.
  induction emotions as [|e l [IHn IHm]] using rev_ind.
  - split; [apply NoDup_nil_2|]. intros x. cbn.
    split; [intros H; inversion H|discriminate].
  - rewrite clicks_snoc. split; [apply emotion_onClick_NoDup, IHn|].
    intros x. rewrite filter_app, length_app.
    rewrite emotion_onClick_elem. cbn [default]. rewrite !IHm.
    destruct (decide (e = x)) as [->|Hne].
    + rewrite filter_cons_True by reflexivity. cbn [filter list_filter length].
      rewrite Nat.add_1_r, Nat.odd_succ, <- Nat.negb_odd.
      destruct (Nat.odd _); cbn; intuition congruence.
    + rewrite filter_cons_False by assumption. cbn [filter list_filter length].
      rewrite Nat.add_0_r. intuition congruence.
Qed.

Lemma handleSubmit_step env st :
  (1 <= step st <= 3)%Z ->
  (1 <= step (handleSubmit env st).1.2 <= 3)%Z
  /\ isSubmitting (handleSubmit env st).1.2 = isSubmitting st.
Proof.
  destruct st as [s [|]]; cbn [step isSubmitting]; intros Hs.
  - run_form. cbn. lia.
  - form_cases env s; lia.
Qed.

Lemma handlePrevious_step st :
  (1 <= step st <= 3)%Z ->
  (1 <= step (handlePrevious st).1.2 <= 3)%Z
  /\ isSubmitting (handlePrevious st).1.2 = isSubmitting st.
Proof.
  destruct st as [s b]; cbn [step isSubmitting]; intros Hs.
  run_form. cbn. destruct (Z.ltb_spec 1 s); cbn; lia.
Qed.

(** Extra X11. Whatever the user does, submitting or clicking
    [Previous], and whatever the form library and the parent answer, the
    step stays one of 1, 2, 3 and the form is not left in the submitting
    state. *)
Theorem psych_steps_in_range actions :
  (1 <= step (fold_left perform actions initial) <= 3)%Z
  /\ isSubmitting (fold_left perform actions initial) = false.
Proof.
  induction actions as [|a l [IHs IHb]] using rev_ind.
  - cbn. lia.
  - rewrite fold_left_app. cbn [fold_left]. destruct a as [env|]; cbn [perform].
    + destruct (handleSubmit_step env _ IHs) as (H1 & H2). split; [exact H1|congruence].
    + destruct (handlePrevious_step _ IHs) as (H1 & H2). split; [exact H1|congruence].
Qed.

(** Extra X12. [onComplete] is called only from the third step, by a
    submission that is not a second one in flight and whose validation of
    the fields of the third step succeeded; it receives the values of the
    form, and the step stays at 3. *)
Theorem handleSubmit_completes env st d :
  (1 <= step st <= 3)%Z ->
  Complete d ∈ (handleSubmit env st).2 ->
  step st = 3%Z /\ isSubmitting st = false
  /\ trigger env step3_fields = Fulfilled true
  /\ d = getValues env
  /\ step (handleSubmit env st).1.2 = 3%Z.
Proof.
  destruct st as [s [|]]; cbn [step isSubmitting]; intros Hs.
  - run_form. cbn. intros H. inversion H.
  - run_form; cbn.
    destruct (Z.eqb_spec s 1) as [->|?]; cbn;
    [|destruct (Z.eqb_spec s 2) as [->|?]; cbn;
      [|destruct (Z.eqb_spec s 3) as [->|?]; cbn; [|lia]]].
    all: destruct (trigger env _) as [[|]|?] eqn:Ht; cbn;
      try destruct (onComplete env _) as [[]|?]; cbn;
      rewrite ?elem_of_cons, ?elem_of_nil; intros H;
      repeat (destruct H as [H|H]; try discriminate H; try contradiction).
    all: injection H as ->; auto.
Qed.

Lemma handleSubmit_completes_witness :
  step {| step := 3; isSubmitting := false |} = 3%Z
  /\ isSubmitting {| step := 3; isSubmitting := false |} = false
  /\ trigger (accepting Scenario.psychologicalInput) step3_fields = Fulfilled true
  /\ Scenario.psychologicalInput = getValues (accepting Scenario.psychologicalInput)
  /\ step (handleSubmit (accepting Scenario.psychologicalInput)
             {| step := 3; isSubmitting := false |}).1.2 = 3%Z.
Proof.
  apply (handleSubmit_completes (accepting Scenario.psychologicalInput)
           {| step := 3; isSubmitting := false |} Scenario.psychologicalInput).
  - cbn. lia.
  - vm_compute. apply list_elem_of_further, list_elem_of_here.
Defined.

(** Extra X13. [handleSubmit] never rejects: a rejection of the
    validation counts as invalid input, a rejection of [onComplete] is
    reported by a toast. It leaves [isSubmitting] as it found it, and a
    submission while another one is in flight does nothing at all. *)
Theorem handleSubmit_never_throws env st :
  (handleSubmit env st).1.1 = Fulfilled tt
  /\ isSubmitting (handleSubmit env st).1.2 = isSubmitting st
  /\ handleSubmit env {| step := step st; isSubmitting := true |}
     = (Fulfilled tt, {| step := step st; isSubmitting := true |}, []).
Proof.
  destruct st as [s [|]]; cbn [step isSubmitting].
  - run_form. cbn. auto.
  - split; [|split; [|reflexivity]].
    + form_cases env s; reflexivity.
    + form_cases env s; reflexivity.
Qed.

End PsychFormProperties.

(** ** The fitness form *)

Lemma fitness_run_from s actions :
  (1 <= s <= 3)%Z ->
  (1 <= (FitnessForm.run s actions).1 <= 3)%Z
  /\ Forall (fun d => FitnessForm.Submit d ∈ actions) (FitnessForm.run s actions).2
  /\ ((FitnessForm.run s actions).2 = []
      \/ (3 - s) + Z.of_nat (length (FitnessForm.run s actions).2)
         <= FitnessForm.submits actions)%Z.
Proof.
  revert s. induction actions as [|a l IH]; intros s Hs.
  - cbn. split; [lia|]. split; [constructor|]. auto.
  - cbn [FitnessForm.run].
    destruct a as [d|]; cbn [FitnessForm.perform].
    + unfold FitnessForm.onSubmit. destruct (Z.ltb_spec s 3).
      * specialize (IH (s + 1)%Z ltac:(lia)).
        destruct (FitnessForm.run (s + 1) l) as [last more].
        cbn [option_list app fst snd] in *.
        destruct IH as (H1 & H2 & H3). split; [exact H1|]. split.
        -- eapply Forall_impl; [exact H2|]. intros x Hx. right. exact Hx.
        -- destruct H3 as [H3|H3]; [auto|]. right.
           unfold FitnessForm.submits in *. cbn. lia.
      * specialize (IH s Hs).
        destruct (FitnessForm.run s l) as [last more].
        cbn [option_list app fst snd] in *.
        destruct IH as (H1 & H2 & H3). split; [exact H1|]. split.
        -- constructor; [left|].
           eapply Forall_impl; [exact H2|]. intros x Hx. right. exact Hx.
        -- right. destruct H3 as [->|H3]; unfold FitnessForm.submits in *; cbn in *; lia.
    + unfold FitnessForm.previous.
      assert (Hs' : (1 <= default s (if (1 <? s)%Z then Some (s - 1)%Z else None) <= s)%Z).
      { destruct (Z.ltb_spec 1 s); cbn; lia. }
      set (s' := default s _) in *.
      specialize (IH s' ltac:(lia)).
      destruct (FitnessForm.run s' l) as [last more].
      cbn [option_list app fst snd] in *.
      destruct IH as (H1 & H2 & H3). split; [exact H1|]. split.
      * eapply Forall_impl; [exact H2|]. intros x Hx. right. exact Hx.
      * destruct H3 as [H3|H3]; [auto|]. right.
        unfold FitnessForm.submits in *. cbn. lia.
Qed.

(** Extra X14. From the first step of the fitness form, whatever the
    user submits and however often the user goes back, the step stays one
    of 1, 2, 3; [onComplete] receives only values that were submitted, and
    it is called at most as often as there are submissions beyond the
    first two. *)
Theorem fitness_steps actions :
  (1 <= (FitnessForm.run 1 actions).1 <= 3)%Z
  /\ Forall (fun d => FitnessForm.Submit d ∈ actions) (FitnessForm.run 1 actions).2
  /\ ((FitnessForm.run 1 actions).2 = []
      \/ 2 + Z.of_nat (length (FitnessForm.run 1 actions).2)
         <= FitnessForm.submits actions)%Z.
Proof. apply (fitness_run_from 1 actions). lia. Qed.

Example fitness_three_submits :
  FitnessForm.run 1 [FitnessForm.Submit Scenario.fitnessInput; FitnessForm.Previous;
                     FitnessForm.Submit Scenario.fitnessInput;
                     FitnessForm.Submit Scenario.fitnessInput;
                     FitnessForm.Submit Scenario.fitnessInput]
  = (3%Z, [Scenario.fitnessInput]).
Proof. reflexivity. Qed.

(** ** The session query of the protected route *)

Lemma startsWith_app s prefix :
  startsWith s prefix = true <-> exists post, s = prefix ++ post.
Proof.
  revert s. induction prefix as [|p ps IH]; intros s; simpl.
  - split; [eauto|reflexivity].
  - destruct s as [|c cs].
    + split; [discriminate|]. intros [post H]. discriminate H.
    + rewrite andb_true_iff, IH, N.eqb_eq. split.
      * intros [-> [post ->]]. eauto.
      * intros [post [= -> ->]]. eauto.
Qed.

(** [s.includes(sub)] holds exactly when [sub] occurs in [s]. *)
Lemma includes_infix s sub :
  includes s sub = true <-> exists pre post, s = pre ++ sub ++ post.
Proof.
  induction s as [|c s IH]; simpl.
  - rewrite orb_false_r, startsWith_app. split.
    + intros [post ->]. exists [], post. reflexivity.
    + intros (pre & post & H). destruct pre; [eauto|discriminate H].
  - rewrite orb_true_iff, startsWith_app, IH. split.
    + intros [[post ->]|(pre & post & ->)].
      * exists [], post. reflexivity.
      * exists (c :: pre), post. reflexivity.
    + intros ([|d pre] & post & H).
      * left. eauto.
      * right. injection H as -> ->. eauto.
Qed.

Section ProtectedRouteProperties.
Import ProtectedRoute.

(** Extra X15. The delay before a retry doubles from one second and is
    capped at thirty seconds: it is [1000 * 2^n] up to the fifth attempt
    and 30000 from the sixth on, and it never decreases with the attempt
    index. *)
Theorem retryDelay_bounds n m :
  retryDelay n = (if (n <=? 4)%N then 1000 * 2 ^ Z.of_N n else 30000)%Z
  /\ (1000 <= retryDelay n <= 30000)%Z
  /\ (retryDelay n <= retryDelay (n + m))%Z.
Proof.
  unfold retryDelay.
  assert (Hpow : forall k, (1 <= 2 ^ Z.of_N k)%Z).
  { intros k. apply (Z.pow_le_mono_r 2 0); lia. }
  assert (Hmono : forall a b, (a <= b)%N -> (2 ^ Z.of_N a <= 2 ^ Z.of_N b)%Z).
  { intros a b H. apply Z.pow_le_mono_r; lia. }
  split; [|split].
  - destruct (N.leb_spec n 4) as [H|H].
    + pose proof (Hmono n 4%N H) as H4. change (2 ^ Z.of_N 4)%Z with 16%Z in H4. lia.
    + pose proof (Hmono 5%N n ltac:(lia)) as H5.
      change (2 ^ Z.of_N 5)%Z with 32%Z in H5. lia.
  - pose proof (Hpow n). lia.
  - pose proof (Hmono n (n + m)%N ltac:(lia)). lia.
Qed.

(** Extra X16. A response with status 401 makes the session query fail
    with an error that is never retried; any other response that is not
    [ok], and a failed [fetch], make it fail with an error that is retried
    as long as fewer than three failures were counted; an [ok] response
    gives what its body parses to. *)
Theorem session_query_retries {A} status (json : outcome A) failureCount :
  (exists e,
      queryFn (Response false status json) = Rejected e
      /\ retry failureCount e
         = if (status =? 401)%Z then false else (failureCount <? 3)%Z)
  /\ (exists e,
        @queryFn A (Failed FailedToFetch) = Rejected e
        /\ retry failureCount e = (failureCount <? 3)%Z)
  /\ queryFn (Response true status json) = json.
Proof.
  split; [|split].
  - unfold queryFn. destruct (Z.eqb_spec status 401); eexists; split; reflexivity.
  - eexists. split; reflexivity.
  - reflexivity.
Qed.

(** Extra X17. [retry] allows a retry exactly when fewer than three
    failures were counted and the error is not an [Error] whose message
    holds the text [Session expired]. *)
Theorem retry_iff failureCount e :
  retry failureCount e = true <->
  (failureCount < 3)%Z
  /\ ~ exists msg pre post,
         Error_message e = Some msg /\ msg = pre ++ js "Session expired" ++ post.
Proof.
  unfold retry. destruct (Error_message e) as [msg|].
  - destruct (includes msg (js "Session expired")) eqn:E.
    + split; [discriminate|]. intros [_ H]. exfalso. apply H.
      apply includes_infix in E as (pre & post & ->). eauto 6.
    + rewrite Z.ltb_lt. split; [|tauto]. intros H. split; [exact H|].
      intros (m & pre & post & [= <-] & Hm).
      assert (includes msg (js "Session expired") = true)
        by (apply includes_infix; eauto).
      congruence.
  - rewrite Z.ltb_lt. split; [|tauto]. intros H. split; [exact H|].
    intros (m & pre & post & Hm & _). discriminate Hm.
Qed.

End ProtectedRouteProperties.

(** ** Login, logout and the redirect of the protected route *)

Section SessionProperties.
Import Session.

(** Extra X18. The protected route and the login work together: when
    no user is logged in, the effect of the route stores the location it
    guards, and a login that succeeds then sends the browser to that
    location, sets the user and removes the stored location; with nothing
    stored the login sends the browser to the dashboard. *)
Theorem login_returns_to_protected_page server st data u location :
  user st = None -> location ≠ [] ->
  login server (username data) (password data) = Fulfilled u ->
  sessionStorage (ProtectedRoute_effect false None location st).1.2
    !! js "redirectUrl" = Some location
  /\ handleLogin server data (ProtectedRoute_effect false None location st).1.2 =
       (Fulfilled tt,
        {| user := Some u;
           sessionStorage := delete (js "redirectUrl") (sessionStorage st) |},
        [Request "/api/login"; Settled "/api/login" true; Navigate location;
         Toast welcome_title (js "Successfully logged in to your account.") false])
  /\ (handleLogin server data
        {| user := None;
           sessionStorage := delete (js "redirectUrl") (sessionStorage st) |}).2 =
       [Request "/api/login"; Settled "/api/login" true; Navigate (js "/dashboard");
        Toast welcome_title (js "Successfully logged in to your account.") false].
Proof.
  intros Hu Hloc Hlogin. split; [|split].
  - run_session. cbn -[js]. rewrite Hu. cbn -[js]. apply lookup_insert_eq.
  - run_session. cbn -[js]. rewrite Hu. cbn -[js]. rewrite Hlogin. cbn -[js].
    rewrite lookup_insert_eq. rewrite delete_insert_eq.
    destruct location; [contradiction|]. reflexivity.
  - run_session. cbn -[js]. rewrite Hlogin. cbn -[js]. rewrite lookup_delete_eq.
    reflexivity.
Qed.

Lemma login_returns_to_protected_page_witness :
  let u := {| id := of_Z 1; account := Scenario.record |} in
  sessionStorage (ProtectedRoute_effect false None (js "/profile") visitor).1.2
    !! js "redirectUrl" = Some (js "/profile")
  /\ handleLogin (accepting u) Scenario.credential
       (ProtectedRoute_effect false None (js "/profile") visitor).1.2 =
       (Fulfilled tt,
        {| user := Some u;
           sessionStorage := delete (js "redirectUrl") (sessionStorage visitor) |},
        [Request "/api/login"; Settled "/api/login" true; Navigate (js "/profile");
         Toast welcome_title (js "Successfully logged in to your account.") false])
  /\ (handleLogin (accepting u) Scenario.credential
        {| user := None;
           sessionStorage := delete (js "redirectUrl") (sessionStorage visitor) |}).2 =
       [Request "/api/login"; Settled "/api/login" true; Navigate (js "/dashboard");
        Toast welcome_title (js "Successfully logged in to your account.") false].
Proof.
  apply (login_returns_to_protected_page
           (accepting {| id := of_Z 1; account := Scenario.record |})
           visitor Scenario.credential
           {| id := of_Z 1; account := Scenario.record |} (js "/profile"));
    [reflexivity | discriminate | reflexivity].
Defined.

(** Extra X19. [logout] never rejects and always ends logged out and on
    the start page: the user of the store is cleared and the browser is
    sent to ["/"] whether the call to the server succeeds or fails; the
    query cache is cleared exactly when it succeeds, and the session
    storage is not touched. *)
Theorem logout_always_clears server st :
  (useAuth_logout server st).1.1 = Fulfilled tt
  /\ user (useAuth_logout server st).1.2 = None
  /\ sessionStorage (useAuth_logout server st).1.2 = sessionStorage st
  /\ last (useAuth_logout server st).2 = Some (Navigate (js "/"))
  /\ (QueryClientClear ∈ (useAuth_logout server st).2 <-> logout server = Fulfilled tt).
Proof.
  run_session. cbn. destruct (logout server) as [[]|e]; cbn.
  - repeat split; auto. intros _. rewrite !elem_of_cons. auto.
  - destruct e; cbn; repeat split; auto; try discriminate;
      rewrite !elem_of_cons, elem_of_nil; intros H;
      repeat (destruct H as [H|H]; try discriminate H); contradiction.
Qed.

(** Extra X20. A login that the server rejects changes nothing and is
    swallowed by [handleLogin]: the handler returns normally, the store
    and the session storage are as before, there is no navigation and no
    toast of welcome; the only toast is the one of the API service. *)
Theorem handleLogin_failure server st data e :
  login server (username data) (password data) = Rejected e ->
  handleLogin server data st =
    (Fulfilled tt, st,
     [Request "/api/login"; Settled "/api/login" false; service_toast e]).
Proof.
  intros H. run_session. cbn. rewrite H. destruct st, e; reflexivity.
Qed.

Lemma handleLogin_failure_witness :
  handleLogin (rejecting FailedToFetch) Scenario.credential visitor =
    (Fulfilled tt, visitor,
     [Request "/api/login"; Settled "/api/login" false; service_toast FailedToFetch]).
Proof.
  apply (handleLogin_failure (rejecting FailedToFetch) visitor Scenario.credential
           FailedToFetch).
  reflexivity.
Defined.

(** Extra X21. [checkUsername] of the hook answers [true] only when the
    server said that the name is available: a name that is taken and a
    server that cannot be reached both give [false], and the hook never
    rejects nor changes the store. *)
Theorem hook_checkUsername server name st :
  useAuth_checkUsername server name st =
    (Fulfilled (match checkUsername server name with
                | Fulfilled available => available
                | Rejected _ => false
                end), st,
     Request "/api/check-username"
       :: Settled "/api/check-username" (fulfilled (checkUsername server name))
       :: match checkUsername server name with
          | Rejected e => [service_toast e]
          | Fulfilled _ => []
          end).
Proof.
  run_session. cbn.
  destruct (checkUsername server name) as [[]|[]]; destruct st; reflexivity.
Qed.

End SessionProperties.

(** ** The chat *)

Section ChatProperties.
Import Chat.

(** Extra X22. [handleSend] does nothing for a message of white space
    only: nothing is sent and the input keeps its text. For any other
    message it appends one message of the user with the text exactly as
    typed, not trimmed, sends that text, and clears the input. *)
Theorem handleSend_sends st :
  handleSend st =
    if blank (message st) then (st, None)
    else ({| message := []; messages := messages st ++ [user_message (message st)] |},
          Some (message st)).
Proof.
  unfold handleSend. case_bool_decide as H.
  - apply trim_blank in H. rewrite H. reflexivity.
  - destruct (blank (message st)) eqn:E; [|reflexivity].
    apply trim_blank in E. contradiction.
Qed.

Lemma user_texts_app l1 l2 : user_texts (l1 ++ l2) = user_texts l1 ++ user_texts l2.
Proof. unfold user_texts. rewrite filter_app, fmap_app. reflexivity. Qed.

(** Extra X23. The transcript only grows: after any typing, sending,
    suggestion clicks and answers the old messages are a prefix of the new
    ones; and the texts of the messages of the user that were added are
    exactly the texts sent to the server, in the same order. *)
Theorem chat_history st actions :
  messages st `prefix_of` messages (Chat.run st actions).1
  /\ user_texts (messages (Chat.run st actions).1)
     = user_texts (messages st) ++ (Chat.run st actions).2.
Proof.
  revert st. induction actions as [|a l IH]; intros st.
  - cbn. split; [reflexivity|]. rewrite app_nil_r. reflexivity.
  - cbn [Chat.run].
    assert (Hstep : messages st `prefix_of` messages (Chat.perform st a).1
                    /\ user_texts (messages (Chat.perform st a).1)
                       = user_texts (messages st) ++ option_list (Chat.perform st a).2).
    { destruct a as [text| |s|r]; cbn [Chat.perform].
      - cbn. split; [reflexivity|]. rewrite app_nil_r. reflexivity.
      - unfold handleSend. case_bool_decide; cbn [messages option_list fst snd].
        + split; [reflexivity|]. rewrite app_nil_r. reflexivity.
        + split; [apply prefix_app_r; reflexivity|]. rewrite user_texts_app. reflexivity.
      - unfold handleSuggestion. cbn [messages option_list fst snd].
        split; [apply prefix_app_r; reflexivity|]. rewrite user_texts_app. reflexivity.
      - unfold onSuccess. cbn [messages option_list fst snd].
        split; [apply prefix_app_r; reflexivity|]. rewrite user_texts_app.
        reflexivity. }
    destruct (Chat.perform st a) as [st1 sent]. cbn [fst snd] in Hstep.
    specialize (IH st1). destruct (Chat.run st1 l) as [st2 more].
    cbn [fst snd] in *.
    destruct Hstep as [Hp Hu]. destruct IH as [IHp IHu]. split.
    + etransitivity; eassumption.
    + rewrite IHu, Hu, app_assoc. reflexivity.
Qed.

End ChatProperties.
